(** * The data contracts of app/models.py

    app/models.py holds no function of its own: it declares SQLModel
    classes, each a list of annotated fields with a [Field(...)]
    descriptor.  What such a declaration does is fixed by the class
    machinery it inherits from [SQLModel]:

    - a class declared with [table=False] validates its keyword arguments
      when it is constructed (pydantic's [validate_python]) and raises
      [ValidationError] with the list of the failing fields;
    - a class declared with [table=True] is built by
      [sqlmodel_table_construct]: the arguments are stored as given, the
      defaults fill what is omitted, and no validator runs; the validators
      of such a class run only through [model_validate].

    The development embeds the declarations one for one (module [Models]),
    the two construction paths ([SQLModel]) and the field validators
    ([Pydantic]) over a small universe of Python values ([Py]).

    A validator first brings its argument to the annotated type and then
    checks the bounds of [Field].  An argument of the annotated type is
    taken as it is.  An argument of another type goes through the
    conversions of pydantic's lax mode (the text of a number for an int,
    a timestamp for a datetime): these are not written out here, they are
    the members of the class [LaxMode], and every statement below that
    mentions a validator holds for every [LaxMode], hence for pydantic's
    own. *)

From Stdlib Require Import ZArith String Ascii List Lia.
From stdpp Require Import base option list strings gmap.

Open Scope Z_scope.
Open Scope string_scope.

(** ** Python values *)

Module Py.

(** A Python [str] is a sequence of code points and [len] counts them;
    field and class names stay Rocq strings. *)
Definition str := list N.

Definition lit (s : string) : str :=
  map N_of_ascii (list_ascii_of_string s).

Definition len (s : str) : nat := length s.

(** A code point that UTF-8 can carry: not a surrogate (U+D800 to U+DFFF)
    and not beyond U+10FFFF. *)
Definition scalar (c : N) : bool :=
  ((c <? 55296) || ((57343 <? c) && (c <=? 1114111)))%N.

(** A [str] without lone surrogate: one that can be encoded as UTF-8. *)
Definition encodable (s : str) : bool := forallb scalar s.

(** [datetime.time], naive: compared field by field. *)
Record time := Time { hour : nat; minute : nat; second : nat; microsecond : nat }.

Definition time_cmp (a b : time) : comparison :=
  match Nat.compare (hour a) (hour b) with
  | Eq =>
      match Nat.compare (minute a) (minute b) with
      | Eq =>
          match Nat.compare (second a) (second b) with
          | Eq => Nat.compare (microsecond a) (microsecond b)
          | c => c
          end
      | c => c
      end
  | c => c
  end.

Definition time_le (a b : time) : bool :=
  match time_cmp a b with Gt => false | _ => true end.

(** A naive [datetime], as the count of microseconds since year 1. *)
Definition datetime := Z.

(** class StudentCategory(str, Enum) *)
Inductive StudentCategory := SUB_JUNIOR | JUNIOR | SENIOR | SUPER_SENIOR.

Definition value (c : StudentCategory) : str :=
  match c with
  | SUB_JUNIOR => lit "Sub Junior"
  | JUNIOR => lit "Junior"
  | SENIOR => lit "Senior"
  | SUPER_SENIOR => lit "Super Senior"
  end.

Definition members : list StudentCategory :=
  [SUB_JUNIOR; JUNIOR; SENIOR; SUPER_SENIOR].

(** [StudentCategory(s)]: the member whose value is [s], if any. *)
Definition of_value (s : str) : option StudentCategory :=
  find (fun c => bool_decide (value c = s)) members.

(** The arguments and attribute values the development considers. *)
Inductive val :=
| None_
| Bool (b : bool)
| Int (z : Z)
| Str (s : str)
| Enum (c : StudentCategory)
| Datetime (d : datetime)
| TimeV (t : time).

#[export] Instance time_eq_dec : EqDecision time.
Proof. solve_decision. Defined.

#[export] Instance StudentCategory_eq_dec : EqDecision StudentCategory.
Proof. solve_decision. Defined.

#[export] Instance val_eq_dec : EqDecision val.
Proof. solve_decision. Defined.

(** Keyword arguments, and the attribute dictionary of an instance. *)
Abbreviation dict := (gmap string val).

End Py.

(** ** Field descriptors and their validators *)

Module Pydantic.
Import Py.

(** The annotations that occur in the file. *)
Inductive annotation :=
| int_
| str_
| bool_
| datetime_
| time_
| StudentCategory_
| Optional (a : annotation).

Inductive default_spec :=
| Required
| Default (v : val)
| DefaultFactoryUtcnow.

(** The keyword arguments of [Field(...)] that the file uses. *)
Inductive FieldArg :=
| default (v : val)
| default_factory_utcnow
| ge (z : Z)
| le (z : Z)
| min_length (n : nat)
| max_length (n : nat)
| primary_key (b : bool)
| unique (b : bool)
| foreign_key (target : string).

Record FieldInfo := {
  f_default : default_spec;
  f_ge : option Z;
  f_le : option Z;
  f_min_length : option nat;
  f_max_length : option nat;
  f_primary_key : bool;
  f_unique : bool;
  f_foreign_key : option string
}.

(** A bare annotation, [x: int], is [Field()]. *)
Definition Field0 : FieldInfo := {|
  f_default := Required; f_ge := None; f_le := None;
  f_min_length := None; f_max_length := None;
  f_primary_key := false; f_unique := false; f_foreign_key := None |}.

Definition set_arg (fi : FieldInfo) (a : FieldArg) : FieldInfo :=
  match a with
  | default v =>
      {| f_default := Default v; f_ge := f_ge fi; f_le := f_le fi;
         f_min_length := f_min_length fi; f_max_length := f_max_length fi;
         f_primary_key := f_primary_key fi; f_unique := f_unique fi;
         f_foreign_key := f_foreign_key fi |}
  | default_factory_utcnow =>
      {| f_default := DefaultFactoryUtcnow; f_ge := f_ge fi; f_le := f_le fi;
         f_min_length := f_min_length fi; f_max_length := f_max_length fi;
         f_primary_key := f_primary_key fi; f_unique := f_unique fi;
         f_foreign_key := f_foreign_key fi |}
  | ge z =>
      {| f_default := f_default fi; f_ge := Some z; f_le := f_le fi;
         f_min_length := f_min_length fi; f_max_length := f_max_length fi;
         f_primary_key := f_primary_key fi; f_unique := f_unique fi;
         f_foreign_key := f_foreign_key fi |}
  | le z =>
      {| f_default := f_default fi; f_ge := f_ge fi; f_le := Some z;
         f_min_length := f_min_length fi; f_max_length := f_max_length fi;
         f_primary_key := f_primary_key fi; f_unique := f_unique fi;
         f_foreign_key := f_foreign_key fi |}
  | min_length n =>
      {| f_default := f_default fi; f_ge := f_ge fi; f_le := f_le fi;
         f_min_length := Some n; f_max_length := f_max_length fi;
         f_primary_key := f_primary_key fi; f_unique := f_unique fi;
         f_foreign_key := f_foreign_key fi |}
  | max_length n =>
      {| f_default := f_default fi; f_ge := f_ge fi; f_le := f_le fi;
         f_min_length := f_min_length fi; f_max_length := Some n;
         f_primary_key := f_primary_key fi; f_unique := f_unique fi;
         f_foreign_key := f_foreign_key fi |}
  | primary_key b =>
      {| f_default := f_default fi; f_ge := f_ge fi; f_le := f_le fi;
         f_min_length := f_min_length fi; f_max_length := f_max_length fi;
         f_primary_key := b; f_unique := f_unique fi;
         f_foreign_key := f_foreign_key fi |}
  | unique b =>
      {| f_default := f_default fi; f_ge := f_ge fi; f_le := f_le fi;
         f_min_length := f_min_length fi; f_max_length := f_max_length fi;
         f_primary_key := f_primary_key fi; f_unique := b;
         f_foreign_key := f_foreign_key fi |}
  | foreign_key t =>
      {| f_default := f_default fi; f_ge := f_ge fi; f_le := f_le fi;
         f_min_length := f_min_length fi; f_max_length := f_max_length fi;
         f_primary_key := f_primary_key fi; f_unique := f_unique fi;
         f_foreign_key := Some t |}
  end.

Definition Field (args : list FieldArg) : FieldInfo :=
  fold_left set_arg args Field0.

(** The [type] entry of an error of a [ValidationError]: the types the
    validators of this file report themselves, and [other] for the types
    only a conversion reports (int_parsing, datetime_parsing, ...). *)
Inductive ErrorType :=
| missing
| int_type
| string_type
| bool_type
| datetime_type
| time_type
| enum
| greater_than_equal
| less_than_equal
| string_too_short
| string_too_long
| string_unicode
| other (type : string).

(** The conversions of lax mode, each for the arguments that are neither
    of the target type nor [None]: the value the argument is converted
    to, or the error the conversion reports. *)
Class LaxMode := {
  int_of : val -> ErrorType + Z;
  str_of : val -> ErrorType + str;
  bool_of : val -> ErrorType + bool;
  datetime_of : val -> ErrorType + datetime;
  time_of : val -> ErrorType + time
}.

(** The mode that converts nothing, as under [strict=True].  The closed
    examples below use it; their arguments have the annotated types, so
    that no conversion is called in any mode. *)
Definition no_conversion : LaxMode := {|
  int_of := fun _ => inl int_type;
  str_of := fun _ => inl string_type;
  bool_of := fun _ => inl bool_type;
  datetime_of := fun _ => inl datetime_type;
  time_of := fun _ => inl time_type
|}.

(** An example of a mode that converts.  It knows one conversion of lax
    mode: a [str] of decimal digits, for an [int], stands for the number
    it writes. *)
Fixpoint digits_value (acc : Z) (s : str) : option Z :=
  match s with
  | [] => Some acc
  | c :: s' =>
      if ((48 <=? c) && (c <=? 57))%N
      then digits_value (10 * acc + Z.of_N (c - 48)) s'
      else None
  end.

Definition decimal_text : LaxMode := {|
  int_of := fun v =>
    match v with
    | Str (c :: s) =>
        match digits_value 0 (c :: s) with
        | Some z => inr z
        | None => inl (other "int_parsing")
        end
    | _ => inl int_type
    end;
  str_of := fun _ => inl string_type;
  bool_of := fun _ => inl bool_type;
  datetime_of := fun _ => inl datetime_type;
  time_of := fun _ => inl time_type
|}.

(** The value of the annotated type a validator works on: the argument
    itself when it has that type, never [None], else what lax mode makes
    of it. *)
Definition to_int {lax : LaxMode} (v : val) : ErrorType + Z :=
  match v with
  | Int z => inr z
  | None_ => inl int_type
  | _ => int_of v
  end.

Definition to_str {lax : LaxMode} (v : val) : ErrorType + str :=
  match v with
  | Str s => inr s
  | None_ => inl string_type
  | _ => str_of v
  end.

Definition to_bool {lax : LaxMode} (v : val) : ErrorType + bool :=
  match v with
  | Bool b => inr b
  | None_ => inl bool_type
  | _ => bool_of v
  end.

Definition to_datetime {lax : LaxMode} (v : val) : ErrorType + datetime :=
  match v with
  | Datetime d => inr d
  | None_ => inl datetime_type
  | _ => datetime_of v
  end.

Definition to_time {lax : LaxMode} (v : val) : ErrorType + time :=
  match v with
  | TimeV t => inr t
  | None_ => inl time_type
  | _ => time_of v
  end.

Definition check_le (fi : FieldInfo) (z : Z) : bool :=
  match f_le fi with Some b => (z <=? b)%Z | None => true end.

Definition check_ge (fi : FieldInfo) (z : Z) : bool :=
  match f_ge fi with Some b => (b <=? z)%Z | None => true end.

Definition check_min_length (fi : FieldInfo) (s : str) : bool :=
  match f_min_length fi with Some n => (n <=? len s)%nat | None => true end.

Definition check_max_length (fi : FieldInfo) (s : str) : bool :=
  match f_max_length fi with Some n => (len s <=? n)%nat | None => true end.

(** The bounds of an [int] field: the upper one is checked first. *)
Definition check_int (fi : FieldInfo) (z : Z) : ErrorType + val :=
  if negb (check_le fi z) then inl less_than_equal
  else if negb (check_ge fi z) then inl greater_than_equal
  else inr (Int z).

Definition length_constrained (fi : FieldInfo) : bool :=
  match f_min_length fi, f_max_length fi with
  | None, None => false
  | _, _ => true
  end.

(** The bounds of a [str] field.  A field with a length bound measures
    the string in its UTF-8 form: one that has none, for a lone
    surrogate, is reported as [string_unicode] before any length is
    looked at.  Then the minimum is checked, then the maximum.  A field
    without length bound keeps the string as it is. *)
Definition check_str (fi : FieldInfo) (s : str) : ErrorType + val :=
  if length_constrained fi then
    if negb (encodable s) then inl string_unicode
    else if negb (check_min_length fi s) then inl string_too_short
    else if negb (check_max_length fi s) then inl string_too_long
    else inr (Str s)
  else inr (Str s).

(** The validator of one field, applied to an argument that was given.
    [Optional] lets [None] through.  The enum takes a member as it is and
    looks an exact [str] up among the values of the members, in its UTF-8
    form; it converts nothing else. *)
Fixpoint validate {lax : LaxMode} (a : annotation) (fi : FieldInfo) (v : val)
  : ErrorType + val :=
  match a with
  | Optional a' =>
      match v with
      | None_ => inr None_
      | _ => validate a' fi v
      end
  | int_ =>
      match to_int v with
      | inr z => check_int fi z
      | inl e => inl e
      end
  | str_ =>
      match to_str v with
      | inr s => check_str fi s
      | inl e => inl e
      end
  | bool_ =>
      match to_bool v with
      | inr b => inr (Bool b)
      | inl e => inl e
      end
  | datetime_ =>
      match to_datetime v with
      | inr d => inr (Datetime d)
      | inl e => inl e
      end
  | time_ =>
      match to_time v with
      | inr t => inr (TimeV t)
      | inl e => inl e
      end
  | StudentCategory_ =>
      match v with
      | Enum c => inr (Enum c)
      | Str s =>
          if encodable s then
            match of_value s with
            | Some c => inr (Enum c)
            | None => inl enum
            end
          else inl string_unicode
      | _ => inl enum
      end
  end.

(** What an omitted field gets: [get_default(call_default_factory=True)];
    [now] is what [datetime.utcnow()] returns at that moment. *)
Definition get_default (now : datetime) (fi : FieldInfo) : option val :=
  match f_default fi with
  | Required => None
  | Default v => Some v
  | DefaultFactoryUtcnow => Some (Datetime now)
  end.

Definition is_required (fi : FieldInfo) : bool :=
  match f_default fi with Required => true | _ => false end.

End Pydantic.

(** ** Classes and their two construction paths *)

Module SQLModel.
Import Py Pydantic.

Definition field := (string * annotation * FieldInfo)%type.

Definition field_name (f : field) : string := f.1.1.
Definition field_annotation (f : field) : annotation := f.1.2.
Definition field_info (f : field) : FieldInfo := f.2.

(** An entry of [__table_args__]: a table-level unique constraint, or
    the dictionary of table options. *)
Inductive TableArg :=
| UniqueConstraint (columns : list string)
| TableOptions (options : list (string * bool)).

Record ModelClass := {
  table : bool;
  tablename : option string;
  model_fields : list field;
  sqlmodel_relationships : list string;
  table_args : list TableArg
}.

Definition ErrorDetails := (string * ErrorType)%type.

Inductive result :=
| Ok (obj : dict)
| ValidationError (errors : list ErrorDetails).

(** The clock: [utcnow name] is what [datetime.utcnow()] returns when
    the default factory of the field [name] is called. *)
Definition clock := string -> datetime.

(** One field of [validate_python]: the argument if it was given, else
    the default (which is not validated), else the error [missing]. *)
Definition validate_field {lax : LaxMode} (utcnow : clock) (data : dict) (f : field)
  : ErrorType + val :=
  match data !! field_name f with
  | Some v => validate (field_annotation f) (field_info f) v
  | None =>
      match get_default (utcnow (field_name f)) (field_info f) with
      | Some d => inr d
      | None => inl missing
      end
  end.

(** All fields are run, in the order of the class; the errors are
    collected in that order.  Arguments that name no field are ignored. *)
Fixpoint validate_fields {lax : LaxMode} (utcnow : clock) (data : dict)
  (fs : list field)
  : list ErrorDetails * dict :=
  match fs with
  | [] => ([], ∅)
  | f :: fs' =>
      let '(errors, obj) := validate_fields utcnow data fs' in
      match validate_field utcnow data f with
      | inl e => ((field_name f, e) :: errors, obj)
      | inr v => (errors, <[field_name f := v]> obj)
      end
  end.

Definition validate_python {lax : LaxMode} (cls : ModelClass) (utcnow : clock)
  (data : dict)
  : result :=
  match validate_fields utcnow data (model_fields cls) with
  | ([], obj) => Ok obj
  | (errors, _) => ValidationError errors
  end.

(** [sqlmodel_table_construct]: every field that was given is stored as
    it is, every other field that is not required gets its default, and
    a required field that was not given stays unset. *)
Fixpoint table_construct_fields (utcnow : clock) (values : dict) (fs : list field)
  : dict :=
  match fs with
  | [] => ∅
  | f :: fs' =>
      let obj := table_construct_fields utcnow values fs' in
      match values !! field_name f with
      | Some v => <[field_name f := v]> obj
      | None =>
          match get_default (utcnow (field_name f)) (field_info f) with
          | Some d => <[field_name f := d]> obj
          | None => obj
          end
      end
  end.

Definition sqlmodel_table_construct (cls : ModelClass) (utcnow : clock)
  (values : dict) : dict :=
  table_construct_fields utcnow values (model_fields cls).

(** Calling the class with keyword arguments, that is [sqlmodel_init]. *)
Definition init {lax : LaxMode} (cls : ModelClass) (utcnow : clock) (data : dict)
  : result :=
  if table cls then Ok (sqlmodel_table_construct cls utcnow data)
  else validate_python cls utcnow data.

(** [cls.model_validate(data)] for a dictionary [data]: the validators
    run, table or not, and a key that is absent is a field that was not
    given. *)
Definition model_validate {lax : LaxMode} (cls : ModelClass) (utcnow : clock)
  (data : dict) : result :=
  validate_python cls utcnow data.

(** Reading the attribute [name] of an instance whose [__dict__] is
    [obj].  A column of a table class that was never set reads [None];
    any other attribute that was never set does not exist. *)
Definition getattr (cls : ModelClass) (obj : dict) (name : string) : option val :=
  match obj !! name with
  | Some v => Some v
  | None =>
      if table cls && bool_decide (name ∈ map field_name (model_fields cls))
      then Some None_ else None
  end.

(** The attributes of an instance that name a field of [cls]. *)
Fixpoint read_fields (cls : ModelClass) (obj : dict) (fs : list field) : dict :=
  match fs with
  | [] => ∅
  | f :: fs' =>
      match getattr cls obj (field_name f) with
      | Some v => <[field_name f := v]> (read_fields cls obj fs')
      | None => read_fields cls obj fs'
      end
  end.

(** [cls.model_validate(instance)] for an instance of [cls] itself: each
    field is read as an attribute of the instance, then validated. *)
Definition model_validate_instance {lax : LaxMode} (cls : ModelClass)
  (utcnow : clock) (obj : dict) : result :=
  validate_python cls utcnow (read_fields cls obj (model_fields cls)).

(** The column sets the declaration makes unique: the primary key, each
    field with [unique=True], each [UniqueConstraint] of the table. *)
Definition unique_columns (cls : ModelClass) : list (list string) :=
  map (fun f => [field_name f])
      (filter (fun f => f_primary_key (field_info f) || f_unique (field_info f) = true)
              (model_fields cls))
  ++ omap (fun a => match a with
                    | UniqueConstraint cols => Some cols
                    | TableOptions _ => None
                    end) (table_args cls).

(** Two rows agree on a column set. *)
Definition agree_on (cols : list string) (r1 r2 : dict) : bool :=
  forallb (fun c => bool_decide (r1 !! c = r2 !! c)) cols.

End SQLModel.

(** ** app/models.py *)

Module Models.
Import Py Pydantic SQLModel.

(** Persistent models (stored in database) *)

Definition Admin : ModelClass := {|
  table := true;
  tablename := Some "admins";
  model_fields := [
    ("id", Optional int_, Field [default None_; primary_key true]);
    ("username", str_, Field [unique true; max_length 50]);
    ("password_hash", str_, Field [max_length 255]);
    ("name", str_, Field [max_length 100]);
    ("email", str_, Field [unique true; max_length 255]);
    ("is_active", bool_, Field [default (Bool true)]);
    ("created_at", datetime_, Field [default_factory_utcnow])
  ];
  sqlmodel_relationships := [];
  table_args := []
|}.

Definition Student : ModelClass := {|
  table := true;
  tablename := Some "students";
  model_fields := [
    ("id", Optional int_, Field [default None_; primary_key true]);
    ("name", str_, Field [max_length 100]);
    ("class_name", str_, Field [max_length 50]);
    ("category", StudentCategory_, Field [default (Enum SUB_JUNIOR)]);
    ("is_active", bool_, Field [default (Bool true)]);
    ("created_at", datetime_, Field [default_factory_utcnow])
  ];
  sqlmodel_relationships := ["event_participations"];
  table_args := []
|}.

Definition Event : ModelClass := {|
  table := true;
  tablename := Some "events";
  model_fields := [
    ("id", Optional int_, Field [default None_; primary_key true]);
    ("name", str_, Field [max_length 200]);
    ("category", str_, Field [max_length 100]);
    ("max_participants", Optional int_, Field [default None_; ge 1]);
    ("priority", int_, Field [default (Int 1); ge 1; le 10]);
    ("average_time_minutes", int_, Field [default (Int 30); ge 1]);
    ("description", str_, Field [default (Str []); max_length 1000]);
    ("is_active", bool_, Field [default (Bool true)]);
    ("created_at", datetime_, Field [default_factory_utcnow])
  ];
  sqlmodel_relationships := ["event_participations"; "schedule_slots"];
  table_args := []
|}.

(** The comment above [__table_args__] announces a unique constraint; the
    tuple holds the options dictionary only. *)
Definition EventParticipant : ModelClass := {|
  table := true;
  tablename := Some "event_participants";
  model_fields := [
    ("id", Optional int_, Field [default None_; primary_key true]);
    ("student_id", int_, Field [foreign_key "students.id"]);
    ("event_id", int_, Field [foreign_key "events.id"]);
    ("assigned_by_admin_id", int_, Field [foreign_key "admins.id"]);
    ("assigned_at", datetime_, Field [default_factory_utcnow])
  ];
  sqlmodel_relationships := ["student"; "event"; "assigned_by_admin"];
  table_args := [TableOptions [("extend_existing", true)]]
|}.

Definition Schedule : ModelClass := {|
  table := true;
  tablename := Some "schedules";
  model_fields := [
    ("id", Optional int_, Field [default None_; primary_key true]);
    ("name", str_, Field [max_length 200]);
    ("description", str_, Field [default (Str []); max_length 1000]);
    ("event_date", datetime_, Field []);
    ("is_generated", bool_, Field [default (Bool false)]);
    ("is_finalized", bool_, Field [default (Bool false)]);
    ("created_by_admin_id", int_, Field [foreign_key "admins.id"]);
    ("created_at", datetime_, Field [default_factory_utcnow]);
    ("updated_at", datetime_, Field [default_factory_utcnow])
  ];
  sqlmodel_relationships := ["created_by_admin"; "schedule_slots"];
  table_args := []
|}.

Definition ScheduleSlot : ModelClass := {|
  table := true;
  tablename := Some "schedule_slots";
  model_fields := [
    ("id", Optional int_, Field [default None_; primary_key true]);
    ("schedule_id", int_, Field [foreign_key "schedules.id"]);
    ("event_id", int_, Field [foreign_key "events.id"]);
    ("start_time", time_, Field []);
    ("end_time", time_, Field []);
    ("venue", str_, Field [default (Str []); max_length 200]);
    ("notes", str_, Field [default (Str []); max_length 500]);
    ("order_index", int_, Field [default (Int 0); ge 0]);
    ("created_at", datetime_, Field [default_factory_utcnow])
  ];
  sqlmodel_relationships := ["schedule"; "event"];
  table_args := []
|}.

(** Non-persistent schemas (for validation, forms, API requests/responses) *)

Definition schema (fs : list field) : ModelClass := {|
  table := false;
  tablename := None;
  model_fields := fs;
  sqlmodel_relationships := [];
  table_args := []
|}.

Definition AdminCreate : ModelClass := schema [
  ("username", str_, Field [max_length 50]);
  ("password", str_, Field [min_length 6; max_length 100]);
  ("name", str_, Field [max_length 100]);
  ("email", str_, Field [max_length 255])
].

Definition AdminUpdate : ModelClass := schema [
  ("name", Optional str_, Field [default None_; max_length 100]);
  ("email", Optional str_, Field [default None_; max_length 255]);
  ("is_active", Optional bool_, Field [default None_])
].

Definition AdminLogin : ModelClass := schema [
  ("username", str_, Field [max_length 50]);
  ("password", str_, Field [max_length 100])
].

Definition StudentCreate : ModelClass := schema [
  ("name", str_, Field [max_length 100]);
  ("class_name", str_, Field [max_length 50]);
  ("category", StudentCategory_, Field [default (Enum SUB_JUNIOR)])
].

Definition StudentUpdate : ModelClass := schema [
  ("name", Optional str_, Field [default None_; max_length 100]);
  ("class_name", Optional str_, Field [default None_; max_length 50]);
  ("category", Optional StudentCategory_, Field [default None_]);
  ("is_active", Optional bool_, Field [default None_])
].

Definition EventCreate : ModelClass := schema [
  ("name", str_, Field [max_length 200]);
  ("category", str_, Field [max_length 100]);
  ("max_participants", Optional int_, Field [default None_; ge 1]);
  ("priority", int_, Field [default (Int 1); ge 1; le 10]);
  ("average_time_minutes", int_, Field [default (Int 30); ge 1]);
  ("description", str_, Field [default (Str []); max_length 1000])
].

Definition EventUpdate : ModelClass := schema [
  ("name", Optional str_, Field [default None_; max_length 200]);
  ("category", Optional str_, Field [default None_; max_length 100]);
  ("max_participants", Optional int_, Field [default None_; ge 1]);
  ("priority", Optional int_, Field [default None_; ge 1; le 10]);
  ("average_time_minutes", Optional int_, Field [default None_; ge 1]);
  ("description", Optional str_, Field [default None_; max_length 1000]);
  ("is_active", Optional bool_, Field [default None_])
].

Definition EventParticipantCreate : ModelClass := schema [
  ("student_id", int_, Field []);
  ("event_id", int_, Field []);
  ("assigned_by_admin_id", int_, Field [])
].

Definition ScheduleCreate : ModelClass := schema [
  ("name", str_, Field [max_length 200]);
  ("description", str_, Field [default (Str []); max_length 1000]);
  ("event_date", datetime_, Field []);
  ("created_by_admin_id", int_, Field [])
].

Definition ScheduleSlotCreate : ModelClass := schema [
  ("schedule_id", int_, Field []);
  ("event_id", int_, Field []);
  ("start_time", time_, Field []);
  ("end_time", time_, Field []);
  ("venue", str_, Field [default (Str []); max_length 200]);
  ("notes", str_, Field [default (Str []); max_length 500]);
  ("order_index", int_, Field [default (Int 0); ge 0])
].

Definition ScheduleSlotUpdate : ModelClass := schema [
  ("start_time", Optional time_, Field [default None_]);
  ("end_time", Optional time_, Field [default None_]);
  ("venue", Optional str_, Field [default None_; max_length 200]);
  ("notes", Optional str_, Field [default None_; max_length 500]);
  ("order_index", Optional int_, Field [default None_; ge 0])
].

(** The read-only schemas for display and printing ([StudentWithEvents],
    [EventWithParticipants], [ScheduleSlotDetail]) carry lists and
    dictionaries and no [Field] constraint; nothing below is about them. *)

End Models.

(** ** Vocabulary of the statements *)

Import Py Pydantic SQLModel Models.

(** The construction raised [ValidationError] and the list of errors has
    an entry of type [e] for the field [name]. *)
Definition raises (r : result) (name : string) (e : ErrorType) : Prop :=
  exists errors, r = ValidationError errors /\ (name, e) ∈ errors.

(** A clock for the examples: every reading is 0. *)
Definition utc0 : clock := fun _ => 0.

Definition priority_field : field :=
  ("priority", int_, Field [default (Int 1); ge 1; le 10]).

Definition average_time_minutes_field : field :=
  ("average_time_minutes", int_, Field [default (Int 30); ge 1]).

Definition Event_bounds (obj : dict) : Prop :=
  exists p t,
    obj !! "priority" = Some (Int p) /\ 1 <= p <= 10
    /\ obj !! "average_time_minutes" = Some (Int t) /\ 1 <= t.

Definition AdminCreate_password : field :=
  ("password", str_, Field [min_length 6; max_length 100]).

Definition AdminLogin_password : field :=
  ("password", str_, Field [max_length 100]).

Definition admin_kwargs (password : string) : dict :=
  <["username" := Str (lit "admin")]> (<["password" := Str (lit password)]>
  (<["name" := Str (lit "Head Teacher")]> (<["email" := Str (lit "head@school.example")]> ∅))).

Definition login_kwargs (password : str) : dict :=
  <["username" := Str (lit "admin")]> (<["password" := Str password]> ∅).

Definition category_field : field :=
  ("category", StudentCategory_, Field [default (Enum SUB_JUNIOR)]).

Definition student_kwargs : dict :=
  <["name" := Str (lit "Amina")]> (<["class_name" := Str (lit "7 B")]> ∅).

Definition elocution_kwargs : dict :=
  <["name" := Str (lit "Elocution English")]> (<["category" := Str (lit "Elocution")]>
  (<["priority" := Int 5]> (<["average_time_minutes" := Int 20]> ∅))).

(** What the validated [EventCreate] holds ([model_dump()]). *)
Definition elocution : dict :=
  <["name" := Str (lit "Elocution English")]> (<["category" := Str (lit "Elocution")]>
  (<["max_participants" := None_]> (<["priority" := Int 5]>
  (<["average_time_minutes" := Int 20]> (<["description" := Str []]> ∅))))).

Definition order_index_field : field :=
  ("order_index", int_, Field [default (Int 0); ge 0]).

Definition order_index_update_field : field :=
  ("order_index", Optional int_, Field [default None_; ge 0]).

Definition venue_field : field :=
  ("venue", str_, Field [default (Str []); max_length 200]).

Definition notes_field : field :=
  ("notes", str_, Field [default (Str []); max_length 500]).

(** The fields of a slot that have a default validate: each is omitted or
    given within its bounds. *)
Definition slot_optionals_valid {lax : LaxMode} (utcnow : clock) (data : dict) : Prop :=
  Forall (fun f => exists v, validate_field utcnow data f = inr v)
         [venue_field; notes_field; order_index_field].

Definition slot_kwargs (st et : time) : dict :=
  <["schedule_id" := Int 1]> (<["event_id" := Int 1]>
  (<["start_time" := TimeV st]> (<["end_time" := TimeV et]> ∅))).

Definition category_update_field : field :=
  ("category", Optional StudentCategory_, Field [default None_]).

(** An argument that is neither a member nor the value of a member. *)
Definition not_a_category (v : val) : Prop :=
  forall c, v <> Enum c /\ v <> Str (value c).

Definition participant_kwargs (id student_id event_id admin_id : Z) : dict :=
  <["id" := Int id]> (<["student_id" := Int student_id]>
  (<["event_id" := Int event_id]> (<["assigned_by_admin_id" := Int admin_id]> ∅))).

Definition assignment_kwargs (student_id event_id admin_id : Z) : dict :=
  <["student_id" := Int student_id]>
  (<["event_id" := Int event_id]> (<["assigned_by_admin_id" := Int admin_id]> ∅)).

(** Modelled from the spec: the loop of the missing update function over
    the fields of a shape.  For each field in turn, a value of the shape
    other than [None] is assigned to the attribute of that name. *)
Definition apply_fields (fs : list field) (update entity : dict) : dict :=
  fold_left (fun e f =>
               match update !! field_name f with
               | Some None_ | None => e
               | Some v => <[field_name f := v]> e
               end)
            fs entity.

(** Modelled from the spec: the function that applies an Update shape to
    a persisted entity is not in app/models.py, which only declares the
    shapes.  After the sentence "mutated via sparse Update shapes (only
    provided fields change)": the provided fields are assigned and nothing
    else is touched. *)
Definition apply_update (cls : ModelClass) (update entity : dict) : dict :=
  apply_fields (model_fields cls) update entity.

(** Every field of the class is [Optional] with the default [None]. *)
Definition sparse (cls : ModelClass) : Prop :=
  Forall (fun f => (exists a, field_annotation f = Optional a)
                   /\ f_default (field_info f) = Default None_)
         (model_fields cls).

Definition student_row : dict :=
  <["id" := Int 7]> (<["name" := Str (lit "Amina")]> (<["class_name" := Str (lit "7 B")]>
  (<["category" := Enum JUNIOR]> (<["is_active" := Bool true]>
  (<["created_at" := Datetime 0]> ∅))))).

Definition promote : dict := <["category" := Str (lit "Senior")]> ∅.

Definition promoted : dict :=
  <["name" := None_]> (<["class_name" := None_]>
  (<["category" := Enum SENIOR]> (<["is_active" := None_]> ∅))).

(** The listed fields validate: each was given an argument that its
    validator accepts, or was omitted and has a default. *)
Definition fields_valid {lax : LaxMode} (utcnow : clock) (data : dict)
  (fs : list field) : Prop :=
  Forall (fun f => exists v, validate_field utcnow data f = inr v) fs.

(** What a length-bounded [str] field reports for a string that is too
    short or too long: the length error if the string has a UTF-8 form,
    else [string_unicode]. *)
Definition length_error (e : ErrorType) (s : str) : ErrorType :=
  if encodable s then e else string_unicode.

(** What a category field reports for an argument that is neither a
    member nor the value of a member. *)
Definition category_error (v : val) : ErrorType :=
  match v with
  | Str s => if encodable s then enum else string_unicode
  | _ => enum
  end.

(** [n] times the lone surrogate U+D800. *)
Definition surrogates (n : nat) : str := repeat 55296%N n.

Definition username_field : field := ("username", str_, Field [max_length 50]).

Definition name_field : field := ("name", str_, Field [max_length 100]).

Definition email_field : field := ("email", str_, Field [max_length 255]).

Definition class_name_field : field := ("class_name", str_, Field [max_length 50]).

Definition schedule_id_field : field := ("schedule_id", int_, Field []).

Definition event_id_field : field := ("event_id", int_, Field []).

Definition start_time_field : field := ("start_time", time_, Field []).

Definition end_time_field : field := ("end_time", time_, Field []).

Definition password_hash_field : field :=
  ("password_hash", str_, Field [max_length 255]).

Definition admin_kwargs_of (password : str) : dict :=
  <["username" := Str (lit "admin")]> (<["password" := Str password]>
  (<["name" := Str (lit "Head Teacher")]> (<["email" := Str (lit "head@school.example")]> ∅))).

(** ** The file as a whole *)

(** The classes declared with [table=True], in the order of the file. *)
Definition tables : list ModelClass :=
  [Admin; Student; Event; EventParticipant; Schedule; ScheduleSlot].

(** The classes declared with [table=False] that take input. *)
Definition schemas : list ModelClass :=
  [AdminCreate; AdminUpdate; AdminLogin; StudentCreate; StudentUpdate;
   EventCreate; EventUpdate; EventParticipantCreate; ScheduleCreate;
   ScheduleSlotCreate; ScheduleSlotUpdate].

Definition classes : list ModelClass := tables ++ schemas.

Definition update_shapes : list ModelClass :=
  [AdminUpdate; StudentUpdate; EventUpdate; ScheduleSlotUpdate].

(** A Create shape with the table class its content is meant for. *)
Definition create_pairs : list (ModelClass * ModelClass) :=
  [(StudentCreate, Student); (EventCreate, Event);
   (EventParticipantCreate, EventParticipant); (ScheduleCreate, Schedule);
   (ScheduleSlotCreate, ScheduleSlot)].

Definition field_names (cls : ModelClass) : list string :=
  map field_name (model_fields cls).

(** What a declaration asks of the value of a field, said without the
    validators: the type of the annotation and the bounds of [Field]. *)
Fixpoint conforms (a : annotation) (fi : FieldInfo) (v : val) : Prop :=
  match a with
  | Optional a' => v = None_ \/ conforms a' fi v
  | int_ =>
      exists z, v = Int z
        /\ (forall b, f_ge fi = Some b -> b <= z)
        /\ (forall b, f_le fi = Some b -> z <= b)
  | str_ =>
      exists s, v = Str s
        /\ (forall n, f_min_length fi = Some n -> (n <= len s)%nat)
        /\ (forall n, f_max_length fi = Some n -> (len s <= n)%nat)
  | bool_ => exists b, v = Bool b
  | datetime_ => exists d, v = Datetime d
  | time_ => exists t, v = TimeV t
  | StudentCategory_ => exists c, v = Enum c
  end.

#[export] Instance annotation_eq_dec : EqDecision annotation.
Proof. solve_decision. Defined.

(** Two declarations of a field that validate alike: the same name, the
    same annotation, the same bounds.  Keys and defaults may differ. *)
Definition same_validator (f g : field) : bool :=
  bool_decide (field_name f = field_name g)
  && bool_decide (field_annotation f = field_annotation g)
  && bool_decide (f_ge (field_info f) = f_ge (field_info g))
  && bool_decide (f_le (field_info f) = f_le (field_info g))
  && bool_decide (f_min_length (field_info f) = f_min_length (field_info g))
  && bool_decide (f_max_length (field_info f) = f_max_length (field_info g)).

(** Every field of the shape [C] is declared alike in the table class
    [T], and every other field of [T] has a default. *)
Definition covers (C T : ModelClass) : bool :=
  forallb (fun f => existsb (same_validator f) (model_fields T)) (model_fields C)
  && forallb (fun g => bool_decide (field_name g ∈ field_names C)
                       || negb (is_required (field_info g)))
             (model_fields T).

(** The target of a foreign key, "table.column", cut at the first dot. *)
Fixpoint split_target (s : string) : option (string * string) :=
  match s with
  | EmptyString => None
  | String c rest =>
      if Ascii.eqb c "."%char then Some (EmptyString, rest)
      else match split_target rest with
           | Some (t, col) => Some (String c t, col)
           | None => None
           end
  end.

Definition find_table (name : string) : option ModelClass :=
  find (fun cls => bool_decide (tablename cls = Some name)) tables.

Definition find_field (cls : ModelClass) (name : string) : option field :=
  find (fun f => bool_decide (field_name f = name)) (model_fields cls).

(** The field a foreign key points to. *)
Definition resolve_foreign_key (target : string) : option (ModelClass * field) :=
  match split_target target with
  | Some (t, col) =>
      match find_table t with
      | Some cls =>
          match find_field cls col with
          | Some f => Some (cls, f)
          | None => None
          end
      | None => None
      end
  | None => None
  end.

(** A [Relationship(...)] attribute: the table of the class that holds
    it, its name, the table of the class in its annotation, whether the
    annotation is a [List], and [back_populates]. *)
Record RelationshipDecl := {
  owner : string;
  attr : string;
  target : string;
  is_list : bool;
  back_populates : option string
}.

Definition relationships : list RelationshipDecl := [
  {| owner := "students"; attr := "event_participations";
     target := "event_participants"; is_list := true;
     back_populates := Some "student" |};
  {| owner := "events"; attr := "event_participations";
     target := "event_participants"; is_list := true;
     back_populates := Some "event" |};
  {| owner := "events"; attr := "schedule_slots";
     target := "schedule_slots"; is_list := true;
     back_populates := Some "event" |};
  {| owner := "event_participants"; attr := "student";
     target := "students"; is_list := false;
     back_populates := Some "event_participations" |};
  {| owner := "event_participants"; attr := "event";
     target := "events"; is_list := false;
     back_populates := Some "event_participations" |};
  {| owner := "event_participants"; attr := "assigned_by_admin";
     target := "admins"; is_list := false;
     back_populates := None |};
  {| owner := "schedules"; attr := "created_by_admin";
     target := "admins"; is_list := false;
     back_populates := None |};
  {| owner := "schedules"; attr := "schedule_slots";
     target := "schedule_slots"; is_list := true;
     back_populates := Some "schedule" |};
  {| owner := "schedule_slots"; attr := "schedule";
     target := "schedules"; is_list := false;
     back_populates := Some "schedule_slots" |};
  {| owner := "schedule_slots"; attr := "event";
     target := "events"; is_list := false;
     back_populates := Some "schedule_slots" |}
].

Definition find_relationship (table_name attribute : string) : option RelationshipDecl :=
  find (fun r => bool_decide (owner r = table_name) && bool_decide (attr r = attribute))
       relationships.

(** The table a field points into, when it is a foreign key. *)
Definition fk_table (f : field) : option string :=
  match f_foreign_key (field_info f) with
  | Some fk => fst <$> split_target fk
  | None => None
  end.

(** The foreign keys of a table class that point into the table [t]. *)
Definition foreign_keys_into (cls : ModelClass) (t : string) : list field :=
  filter (fun f => fk_table f = Some t) (model_fields cls).

(** ** General facts about the two construction paths *)

Section Validation.
Context {lax : LaxMode}.
Variable utcnow : clock.
Variable data : dict.

(** A key of the result is the name of a field. *)
Lemma validate_fields_lookup_None fs k :
  k ∉ map field_name fs -> (validate_fields utcnow data fs).2 !! k = None.
Proof.
  induction fs as [|f fs IH]; simpl; intros Hk.
  - apply lookup_empty.
  - apply not_elem_of_cons in Hk as [Hne Hk].
    destruct (validate_fields utcnow data fs) as [errors obj]; simpl in *.
    destruct (validate_field utcnow data f); simpl; auto.
    rewrite lookup_insert_ne by congruence. auto.
Qed.

(** A field that validates is stored under its name, whatever the other
    fields do, provided no later field has the same name. *)
Lemma validate_fields_lookup fs f v :
  NoDup (map field_name fs) -> f ∈ fs ->
  validate_field utcnow data f = inr v ->
  (validate_fields utcnow data fs).2 !! field_name f = Some v.
Proof.
  induction fs as [|g fs IH]; simpl; intros Hnd Hin Hv.
  - by apply elem_of_nil in Hin.
  - apply NoDup_cons in Hnd as [Hg Hnd].
    destruct (validate_fields utcnow data fs) as [errors obj] eqn:E; simpl in *.
    apply elem_of_cons in Hin as [->|Hin].
    + rewrite Hv. simpl. apply lookup_insert_eq.
    + assert (field_name g <> field_name f) as Hne.
      { intros Heq. apply Hg. rewrite Heq. apply list_elem_of_fmap. eauto. }
      destruct (validate_field utcnow data g); simpl; [|rewrite lookup_insert_ne by done]; auto.
Qed.

(** The error of a failing field is in the list. *)
Lemma validate_fields_error fs f e :
  f ∈ fs -> validate_field utcnow data f = inl e ->
  (field_name f, e) ∈ (validate_fields utcnow data fs).1.
Proof.
  induction fs as [|g fs IH]; simpl; intros Hin He.
  - by apply elem_of_nil in Hin.
  - destruct (validate_fields utcnow data fs) as [errors obj]; simpl in *.
    apply elem_of_cons in Hin as [->|Hin].
    + rewrite He. simpl. apply elem_of_cons. by left.
    + destruct (validate_field utcnow data g); simpl; auto.
      apply elem_of_cons. right. auto.
Qed.

(** Every error in the list is the error of a field. *)
Lemma validate_fields_error_inv fs n e :
  (n, e) ∈ (validate_fields utcnow data fs).1 ->
  exists f, f ∈ fs /\ field_name f = n /\ validate_field utcnow data f = inl e.
Proof.
  induction fs as [|g fs IH]; simpl; intros Hin.
  - by apply elem_of_nil in Hin.
  - destruct (validate_fields utcnow data fs) as [errors obj]; simpl in *.
    destruct (validate_field utcnow data g) as [e'|v] eqn:E; simpl in *.
    + apply elem_of_cons in Hin as [Heq|Hin].
      * inversion Heq; subst. exists g. split; [apply elem_of_cons; by left|done].
      * destruct (IH Hin) as (f & ? & ? & ?). exists f.
        split; [apply elem_of_cons; by right|done].
    + destruct (IH Hin) as (f & ? & ? & ?). exists f.
      split; [apply elem_of_cons; by right|done].
Qed.

Lemma validate_fields_no_error fs :
  Forall (fun f => exists v, validate_field utcnow data f = inr v) fs ->
  (validate_fields utcnow data fs).1 = [].
Proof.
  induction 1 as [|f fs [v Hv] _ IH]; simpl; [done|].
  destruct (validate_fields utcnow data fs) as [errors obj]; simpl in *.
  by rewrite Hv.
Qed.

Variable cls : ModelClass.
Hypothesis names_NoDup : NoDup (map field_name (model_fields cls)).

(** An accepted instance holds, for each field, what its validator (or
    its default) returned. *)
Lemma validate_python_Ok_field obj f :
  validate_python cls utcnow data = Ok obj -> f ∈ model_fields cls ->
  exists v, validate_field utcnow data f = inr v /\ obj !! field_name f = Some v.
Proof.
  unfold validate_python. intros H Hin.
  destruct (validate_fields utcnow data (model_fields cls)) as [errors o] eqn:E.
  destruct errors; [|discriminate]. injection H as ->.
  destruct (validate_field utcnow data f) as [e|v] eqn:Ef.
  - pose proof (validate_fields_error _ _ _ Hin Ef) as He.
    rewrite E in He. by apply elem_of_nil in He.
  - exists v. split; [done|].
    pose proof (validate_fields_lookup _ _ _ names_NoDup Hin Ef) as Hl.
    by rewrite E in Hl.
Qed.

(** One failing field is enough for the whole construction to fail, and
    its error is reported. *)
Lemma validate_python_rejects f e :
  f ∈ model_fields cls -> validate_field utcnow data f = inl e ->
  exists errors, validate_python cls utcnow data = ValidationError errors
                 /\ (field_name f, e) ∈ errors.
Proof.
  intros Hin He. unfold validate_python.
  pose proof (validate_fields_error _ _ _ Hin He) as H.
  destruct (validate_fields utcnow data (model_fields cls)) as [errors o].
  simpl in H. destruct errors as [|e0 errors].
  - by apply elem_of_nil in H.
  - eauto.
Qed.

(** If every field validates, the construction succeeds. *)
Lemma validate_python_accepts :
  Forall (fun f => exists v, validate_field utcnow data f = inr v) (model_fields cls) ->
  exists obj, validate_python cls utcnow data = Ok obj.
Proof.
  intros H. apply validate_fields_no_error in H. unfold validate_python.
  destruct (validate_fields utcnow data (model_fields cls)) as [errors o].
  simpl in H. subst. eauto.
Qed.

End Validation.

Section TableConstruct.
Context {lax : LaxMode}.
Variable utcnow : clock.
Variable values : dict.

(** Without validation, a field that was given holds the argument as it
    was given. *)
Lemma table_construct_given fs f v :
  f ∈ fs -> values !! field_name f = Some v ->
  table_construct_fields utcnow values fs !! field_name f = Some v.
Proof.
  induction fs as [|g fs IH]; simpl; intros Hin Hv.
  - by apply elem_of_nil in Hin.
  - destruct (decide (field_name g = field_name f)) as [Heq|Hne].
    + rewrite Heq, Hv. apply lookup_insert_eq.
    + apply elem_of_cons in Hin as [->|Hin]; [done|].
      destruct (values !! field_name g).
      * rewrite lookup_insert_ne by done. auto.
      * destruct (get_default _ _); [rewrite lookup_insert_ne by done|]; auto.
Qed.

(** A field that was omitted holds its default. *)
Lemma table_construct_default fs f d :
  NoDup (map field_name fs) -> f ∈ fs -> values !! field_name f = None ->
  get_default (utcnow (field_name f)) (field_info f) = Some d ->
  table_construct_fields utcnow values fs !! field_name f = Some d.
Proof.
  induction fs as [|g fs IH]; simpl; intros Hnd Hin Hv Hd.
  - by apply elem_of_nil in Hin.
  - apply NoDup_cons in Hnd as [Hg Hnd].
    apply elem_of_cons in Hin as [->|Hin].
    + rewrite Hv, Hd. apply lookup_insert_eq.
    + assert (field_name g <> field_name f) as Hne.
      { intros Heq. apply Hg. rewrite Heq. apply list_elem_of_fmap. eauto. }
      destruct (values !! field_name g).
      * rewrite lookup_insert_ne by done. auto.
      * destruct (get_default _ (field_info g)); [rewrite lookup_insert_ne by done|]; auto.
Qed.

End TableConstruct.

(** ** What a field validator accepts *)

Lemma validate_field_inr {lax : LaxMode} utcnow data f v :
  validate_field utcnow data f = inr v ->
  (exists raw, data !! field_name f = Some raw
               /\ validate (field_annotation f) (field_info f) raw = inr v)
  \/ (data !! field_name f = None
      /\ get_default (utcnow (field_name f)) (field_info f) = Some v).
Proof.
  unfold validate_field. destruct (data !! field_name f) as [raw|].
  - intros H. left. eauto.
  - destruct (get_default _ _) as [d|]; [|discriminate].
    intros [= ->]. by right.
Qed.

Lemma validate_field_given {lax : LaxMode} utcnow data f raw :
  data !! field_name f = Some raw ->
  validate_field utcnow data f = validate (field_annotation f) (field_info f) raw.
Proof. unfold validate_field. by intros ->. Qed.

Lemma validate_field_omitted {lax : LaxMode} utcnow data f d :
  data !! field_name f = None ->
  get_default (utcnow (field_name f)) (field_info f) = Some d ->
  validate_field utcnow data f = inr d.
Proof. unfold validate_field. by intros -> ->. Qed.

Lemma check_int_inr fi z w :
  check_int fi z = inr w -> w = Int z /\ check_le fi z = true /\ check_ge fi z = true.
Proof.
  unfold check_int.
  destruct (check_le fi z) eqn:Hle; simpl; [|discriminate].
  destruct (check_ge fi z) eqn:Hge; simpl; [|discriminate].
  by intros [= <-].
Qed.

Lemma check_str_inr fi s w :
  check_str fi s = inr w ->
  w = Str s /\ check_min_length fi s = true /\ check_max_length fi s = true.
Proof.
  unfold check_str, length_constrained, check_min_length, check_max_length.
  destruct (f_min_length fi) as [m|], (f_max_length fi) as [n|];
    try (destruct (encodable s); simpl; [|discriminate]);
    repeat (match goal with
            | |- context [Nat.leb ?a ?b] => destruct (Nat.leb a b) eqn:?; simpl
            end; try discriminate);
    by intros [= <-].
Qed.

(** What an [int] field accepts is the [int] its argument stands for,
    within the bounds. *)
Lemma validate_int_inr {lax : LaxMode} fi v w :
  validate int_ fi v = inr w ->
  exists z, to_int v = inr z /\ w = Int z /\ check_le fi z = true /\ check_ge fi z = true.
Proof.
  simpl. destruct (to_int v) as [e|z]; [discriminate|].
  intros H. apply check_int_inr in H as (-> & Hle & Hge). eauto 10.
Qed.

Lemma validate_str_inr {lax : LaxMode} fi v w :
  validate str_ fi v = inr w ->
  exists s, to_str v = inr s /\ w = Str s
            /\ check_min_length fi s = true /\ check_max_length fi s = true.
Proof.
  simpl. destruct (to_str v) as [e|s]; [discriminate|].
  intros H. apply check_str_inr in H as (-> & Hmin & Hmax). eauto 10.
Qed.

Lemma validate_Optional_inr {lax : LaxMode} a fi v w :
  validate (Optional a) fi v = inr w ->
  (v = None_ /\ w = None_) \/ (v <> None_ /\ validate a fi v = inr w).
Proof.
  destruct v; simpl; intros H;
    try (right; split; [discriminate | exact H]).
  left. by injection H as <-.
Qed.

Lemma validate_StudentCategory_inr {lax : LaxMode} fi v w :
  validate StudentCategory_ fi v = inr w ->
  exists c, w = Enum c /\ (v = Enum c \/ v = Str (value c)).
Proof.
  destruct v; simpl; try discriminate.
  - destruct (encodable s); [|discriminate].
    destruct (of_value s) as [c|] eqn:E; [|discriminate].
    intros [= <-]. exists c. split; [done|]. right.
    unfold of_value in E. apply find_some in E as [_ E].
    apply bool_decide_eq_true in E. by subst.
  - intros [= <-]. eauto.
Qed.

(** The four members have four different values, so the lookup by value
    returns the member whose value was given. *)
Lemma of_value_value c : of_value (value c) = Some c.
Proof. by destruct c. Qed.

Lemma of_value_None s :
  (forall c, s <> value c) -> of_value s = None.
Proof.
  intros H. destruct (of_value s) as [c|] eqn:E; [|done].
  unfold of_value in E. apply find_some in E as [_ E].
  apply bool_decide_eq_true in E. by destruct (H c).
Qed.

Lemma value_encodable c : encodable (value c) = true.
Proof. by destruct c. Qed.

Ltac defaults_valid :=
  repeat (apply Forall_cons; split; [eexists; reflexivity|]); by apply Forall_nil.
Ltac field_in := simpl; repeat (first [apply list_elem_of_here | apply list_elem_of_further]).
Ltac names_nodup := apply (bool_decide_unpack _); vm_compute; exact I.

(** The constructor of a table class: it returns an instance, which holds
    every given field argument as it was given. *)
Lemma table_init_stores {lax : LaxMode} cls utcnow data :
  table cls = true ->
  exists obj, init cls utcnow data = Ok obj
    /\ forall f v, f ∈ model_fields cls -> data !! field_name f = Some v ->
                   obj !! field_name f = Some v.
Proof.
  intros Ht. exists (sqlmodel_table_construct cls utcnow data).
  split; [unfold init; by rewrite Ht|].
  intros f v Hf Hv. by apply table_construct_given.
Qed.

(** ** Event: priority and average_time_minutes *)

Section EventFields.
Context {lax : LaxMode}.
Variable cls : ModelClass.
Hypothesis names_NoDup : NoDup (map field_name (model_fields cls)).
Hypothesis has_priority : priority_field ∈ model_fields cls.
Hypothesis has_average_time : average_time_minutes_field ∈ model_fields cls.
Variable utcnow : clock.
Variable data : dict.

Lemma validated_Event_bounds obj :
  validate_python cls utcnow data = Ok obj -> Event_bounds obj.
Proof.
  intros H.
  destruct (validate_python_Ok_field utcnow data cls names_NoDup obj _ H has_priority)
    as (vp & Hp & Hop).
  destruct (validate_python_Ok_field utcnow data cls names_NoDup obj _ H has_average_time)
    as (vt & Ht & Hot).
  simpl in Hop, Hot.
  assert (exists p, vp = Int p /\ 1 <= p <= 10) as (p & -> & Hpb).
  { apply validate_field_inr in Hp as [(raw & _ & Hv)|[_ Hd]].
    - apply validate_int_inr in Hv as (z & _ & -> & Hle & Hge).
      cbn in Hle, Hge. exists z. split; [done|lia].
    - cbn in Hd. injection Hd as <-. exists 1. split; [done|lia]. }
  assert (exists t, vt = Int t /\ 1 <= t) as (t & -> & Htb).
  { apply validate_field_inr in Ht as [(raw & _ & Hv)|[_ Hd]].
    - apply validate_int_inr in Hv as (z & _ & -> & _ & Hge).
      cbn in Hge. exists z. split; [done|lia].
    - cbn in Hd. injection Hd as <-. exists 30. split; [done|lia]. }
  exists p, t. eauto.
Qed.

Lemma priority_above_rejected v p :
  data !! "priority" = Some v -> to_int v = inr p -> 10 < p ->
  raises (validate_python cls utcnow data) "priority" less_than_equal.
Proof.
  intros Hd Hv Hp.
  apply (validate_python_rejects utcnow data cls priority_field _ has_priority).
  rewrite (validate_field_given utcnow data priority_field _ Hd). cbn.
  rewrite Hv. unfold check_int. cbn.
  destruct (Z.leb_spec p 10); [lia|done].
Qed.

Lemma priority_below_rejected v p :
  data !! "priority" = Some v -> to_int v = inr p -> p < 1 ->
  raises (validate_python cls utcnow data) "priority" greater_than_equal.
Proof.
  intros Hd Hv Hp.
  apply (validate_python_rejects utcnow data cls priority_field _ has_priority).
  rewrite (validate_field_given utcnow data priority_field _ Hd). cbn.
  rewrite Hv. unfold check_int. cbn.
  destruct (Z.leb_spec p 10); [|lia]. cbn.
  destruct (Z.leb_spec 1 p); [lia|done].
Qed.

Lemma average_time_below_rejected v t :
  data !! "average_time_minutes" = Some v -> to_int v = inr t -> t < 1 ->
  raises (validate_python cls utcnow data) "average_time_minutes" greater_than_equal.
Proof.
  intros Hd Hv Hp.
  apply (validate_python_rejects utcnow data cls average_time_minutes_field _ has_average_time).
  rewrite (validate_field_given utcnow data average_time_minutes_field _ Hd). cbn.
  rewrite Hv. unfold check_int. cbn.
  destruct (Z.leb_spec 1 t); [lia|done].
Qed.

End EventFields.

Lemma EventCreate_names : NoDup (map field_name (model_fields EventCreate)).
Proof. names_nodup. Qed.

Lemma Event_names : NoDup (map field_name (model_fields Event)).
Proof. names_nodup. Qed.




(** ** Length bounds *)

Lemma check_str_unicode fi s :
  length_constrained fi = true -> encodable s = false ->
  check_str fi s = inl string_unicode.
Proof. unfold check_str. by intros -> ->. Qed.

Lemma check_str_short fi s m :
  f_min_length fi = Some m -> (len s < m)%nat ->
  check_str fi s = inl (length_error string_too_short s).
Proof.
  intros Hm Hlen. unfold check_str, length_constrained, length_error, check_min_length.
  rewrite Hm. destruct (encodable s); simpl; [|done].
  by rewrite (proj2 (Nat.leb_gt m (len s))) by lia.
Qed.

Lemma check_str_long fi s n :
  f_max_length fi = Some n -> (forall m, f_min_length fi = Some m -> (m <= n)%nat) ->
  (n < len s)%nat ->
  check_str fi s = inl (length_error string_too_long s).
Proof.
  intros Hn Hmin Hlen.
  unfold check_str, length_constrained, length_error, check_min_length, check_max_length.
  rewrite Hn. destruct (f_min_length fi) as [m|] eqn:Em.
  - specialize (Hmin m eq_refl). destruct (encodable s); simpl; [|done].
    rewrite (proj2 (Nat.leb_le m (len s))) by lia. simpl.
    by rewrite (proj2 (Nat.leb_gt (len s) n)) by lia.
  - destruct (encodable s); simpl; [|done].
    by rewrite (proj2 (Nat.leb_gt (len s) n)) by lia.
Qed.

Lemma check_str_within fi s :
  encodable s = true ->
  (forall m, f_min_length fi = Some m -> (m <= len s)%nat) ->
  (forall n, f_max_length fi = Some n -> (len s <= n)%nat) ->
  check_str fi s = inr (Str s).
Proof.
  intros He Hmin Hmax.
  unfold check_str, length_constrained, check_min_length, check_max_length.
  rewrite He. simpl.
  destruct (f_min_length fi) as [m|]; [rewrite (proj2 (Nat.leb_le m (len s))) by auto|];
    (destruct (f_max_length fi) as [n|]; [rewrite (proj2 (Nat.leb_le (len s) n)) by auto|]);
    done.
Qed.

(** A given [str] argument without lone surrogate and within the maximum
    length of its field is accepted as it is. *)
Lemma str_field_accepts {lax : LaxMode} utcnow data name fi s n :
  data !! name = Some (Str s) -> encodable s = true ->
  f_min_length fi = None -> f_max_length fi = Some n -> (len s <= n)%nat ->
  validate_field utcnow data (name, str_, fi) = inr (Str s).
Proof.
  intros Hd He Hmin Hmax Hlen.
  rewrite (validate_field_given utcnow data (name, str_, fi) _ Hd).
  cbn [field_annotation field_info fst snd]. simpl.
  apply check_str_within; [done| |].
  - intros m Hm. congruence.
  - intros n' Hn'. congruence.
Qed.

(** Acceptance, with what the instance then holds. *)
Lemma validate_python_accepts_lookup {lax : LaxMode} utcnow data cls :
  NoDup (map field_name (model_fields cls)) ->
  Forall (fun f => exists v, validate_field utcnow data f = inr v) (model_fields cls) ->
  exists obj, validate_python cls utcnow data = Ok obj
    /\ forall f v, f ∈ model_fields cls -> validate_field utcnow data f = inr v ->
                   obj !! field_name f = Some v.
Proof.
  intros Hnd Hall.
  destruct (validate_python_accepts utcnow data cls Hall) as [obj Hobj].
  exists obj. split; [done|]. intros f v Hin Hv.
  destruct (validate_python_Ok_field utcnow data cls Hnd obj f Hobj Hin) as (v' & Hv' & Hl).
  congruence.
Qed.

(** ** AdminCreate and AdminLogin: the password *)

Lemma AdminCreate_names : NoDup (map field_name (model_fields AdminCreate)).
Proof. names_nodup. Qed.

Lemma AdminLogin_names : NoDup (map field_name (model_fields AdminLogin)).
Proof. names_nodup. Qed.

Lemma AdminCreate_short_password {lax : LaxMode} utcnow data pw :
  data !! "password" = Some (Str pw) -> (len pw < 6)%nat ->
  raises (init AdminCreate utcnow data) "password" (length_error string_too_short pw).
Proof.
  intros Hd Hlen.
  apply (validate_python_rejects utcnow data AdminCreate AdminCreate_password);
    [field_in|].
  rewrite (validate_field_given utcnow data AdminCreate_password _ Hd).
  cbn [field_annotation field_info AdminCreate_password fst snd]. simpl.
  by apply check_str_short with 6%nat.
Qed.

Lemma password_unicode_rejected {lax : LaxMode} cls utcnow data fi pw :
  table cls = false -> ("password", str_, fi) ∈ model_fields cls ->
  length_constrained fi = true ->
  data !! "password" = Some (Str pw) -> encodable pw = false ->
  raises (init cls utcnow data) "password" string_unicode.
Proof.
  intros Ht Hf Hc Hd He. unfold init. rewrite Ht.
  apply (validate_python_rejects utcnow data cls _ _ Hf).
  rewrite (validate_field_given utcnow data ("password", str_, fi) _ Hd).
  cbn [field_annotation field_info fst snd]. simpl.
  by apply check_str_unicode.
Qed.

(** C3, as stated, fails for a password of six characters that cannot be
    encoded: six lone surrogates are rejected with [string_unicode],
    although the other fields are within their bounds. *)
Lemma AdminCreate_surrogate_password_rejected :
  len (surrogates 6) = 6%nat
  /\ raises (init (lax := no_conversion) AdminCreate utc0 (admin_kwargs_of (surrogates 6)))
       "password" string_unicode
  /\ exists obj,
       init (lax := no_conversion) AdminCreate utc0 (admin_kwargs_of (lit "123456")) = Ok obj.
Proof.
  split; [reflexivity|]. split; [|eexists; reflexivity].
  eexists. split; [reflexivity|]. field_in.
Qed.

(** C3 (amended): an [AdminCreate] whose password has fewer than 6
    characters is rejected ([string_too_short], or [string_unicode] if it
    holds a lone surrogate); a password that holds a lone surrogate is
    rejected whatever its length; with a password of 6 to 100 characters
    without lone surrogate and three other fields that validate it is
    accepted, and holds the password as given. *)
Theorem AdminCreate_password_length {lax : LaxMode}
  (utcnow : clock) (data : dict) (pw : str) :
  data !! "password" = Some (Str pw) ->
  ((len pw < 6)%nat ->
     raises (init AdminCreate utcnow data) "password"
       (length_error string_too_short pw))
  /\ (encodable pw = false ->
        raises (init AdminCreate utcnow data) "password" string_unicode)
  /\ ((6 <= len pw <= 100)%nat -> encodable pw = true ->
        fields_valid utcnow data [username_field; name_field; email_field] ->
        exists obj, init AdminCreate utcnow data = Ok obj
                    /\ obj !! "password" = Some (Str pw)).
Proof.
  intros Hp. split; [by apply AdminCreate_short_password|]. split.
  { intros He. by apply (password_unicode_rejected AdminCreate utcnow data
                           (Field [min_length 6; max_length 100]) pw);
      [|field_in|..]. }
  intros Hpl He Hval.
  assert (validate_field utcnow data AdminCreate_password = inr (Str pw)) as Hpw.
  { rewrite (validate_field_given utcnow data AdminCreate_password _ Hp).
    cbn [field_annotation field_info AdminCreate_password fst snd]. simpl.
    apply check_str_within; [done| |]; intros k Hk; cbn in Hk; injection Hk as <-; lia. }
  unfold fields_valid in Hval.
  apply Forall_cons in Hval as [Hu Hval]. apply Forall_cons in Hval as [Hn Hval].
  apply Forall_cons in Hval as [Hem _].
  destruct (validate_python_accepts_lookup utcnow data AdminCreate AdminCreate_names)
    as (obj & Hobj & Hl).
  { repeat (apply Forall_cons; split); [exact Hu| |exact Hn|exact Hem|by apply Forall_nil].
    eexists. exact Hpw. }
  exists obj. split; [exact Hobj|].
  apply (Hl AdminCreate_password); [field_in|exact Hpw].
Qed.

Lemma AdminCreate_password_length_witness :
  raises (init (lax := no_conversion) AdminCreate utc0 (admin_kwargs_of (lit "12345")))
    "password" string_too_short
  /\ raises (init (lax := no_conversion) AdminCreate utc0 (admin_kwargs_of (surrogates 8)))
       "password" string_unicode
  /\ exists obj,
       init (lax := no_conversion) AdminCreate utc0 (admin_kwargs_of (lit "123456")) = Ok obj
       /\ obj !! "password" = Some (Str (lit "123456")).
Proof.
  split; [|split].
  - destruct (AdminCreate_password_length (lax := no_conversion) utc0
                (admin_kwargs_of (lit "12345")) (lit "12345") eq_refl) as (H & _).
    apply H. simpl. lia.
  - destruct (AdminCreate_password_length (lax := no_conversion) utc0
                (admin_kwargs_of (surrogates 8)) (surrogates 8) eq_refl) as (_ & H & _).
    apply H. reflexivity.
  - destruct (AdminCreate_password_length (lax := no_conversion) utc0
                (admin_kwargs_of (lit "123456")) (lit "123456") eq_refl) as (_ & _ & H).
    apply H; [simpl; lia | reflexivity | defaults_valid].
Defined.

Lemma AdminLogin_accepts {lax : LaxMode} utcnow data pw :
  fields_valid utcnow data [username_field] ->
  data !! "password" = Some (Str pw) -> encodable pw = true -> (len pw <= 100)%nat ->
  exists obj, init AdminLogin utcnow data = Ok obj
              /\ obj !! "password" = Some (Str pw).
Proof.
  intros Hval Hp He Hpl.
  assert (validate_field utcnow data AdminLogin_password = inr (Str pw)) as Hpw
    by by eapply str_field_accepts.
  apply Forall_cons in Hval as [Hu _].
  destruct (validate_python_accepts_lookup utcnow data AdminLogin AdminLogin_names)
    as (obj & Hobj & Hl).
  { repeat (apply Forall_cons; split); [exact Hu| |by apply Forall_nil].
    eexists. exact Hpw. }
  exists obj. split; [exact Hobj|].
  apply (Hl AdminLogin_password); [field_in|exact Hpw].
Qed.

(** C8, as stated, fails for a password that cannot be encoded: the
    single lone surrogate, a password of length 1, is rejected by
    [AdminLogin] with [string_unicode]. *)
Lemma AdminLogin_surrogate_password_rejected :
  len (surrogates 1) = 1%nat
  /\ raises (init (lax := no_conversion) AdminLogin utc0 (login_kwargs (surrogates 1)))
       "password" string_unicode.
Proof.
  split; [reflexivity|]. eexists. split; [reflexivity|]. field_in.
Qed.

(** C8 (amended): [AdminLogin] bounds the password from above only.
    With a username that validates, every password of 0 to 100 characters
    without lone surrogate is accepted, the empty one included, which
    [AdminCreate] rejects; above 100 characters [AdminLogin] rejects too,
    and a password that holds a lone surrogate is rejected whatever its
    length. *)
Theorem AdminLogin_password_no_minimum {lax : LaxMode}
  (utcnow : clock) (data : dict) (pw : str) :
  data !! "password" = Some (Str pw) ->
  fields_valid utcnow data [username_field] ->
  ((len pw <= 100)%nat -> encodable pw = true ->
     exists obj, init AdminLogin utcnow data = Ok obj
                 /\ obj !! "password" = Some (Str pw))
  /\ ((100 < len pw)%nat ->
        raises (init AdminLogin utcnow data) "password"
          (length_error string_too_long pw))
  /\ (encodable pw = false ->
        raises (init AdminLogin utcnow data) "password" string_unicode)
  /\ (pw = [] ->
        (exists obj, init AdminLogin utcnow data = Ok obj
                     /\ obj !! "password" = Some (Str []))
        /\ raises (init AdminCreate utcnow data) "password" string_too_short).
Proof.
  intros Hp Hval. split; [|split; [|split]].
  - intros Hpl He. by apply AdminLogin_accepts.
  - intros Hpl.
    apply (validate_python_rejects utcnow data AdminLogin AdminLogin_password);
      [field_in|].
    rewrite (validate_field_given utcnow data AdminLogin_password _ Hp).
    cbn [field_annotation field_info AdminLogin_password fst snd]. simpl.
    apply check_str_long with 100%nat; [reflexivity| |done].
    intros m Hm. discriminate Hm.
  - intros He. by apply (password_unicode_rejected AdminLogin utcnow data
                           (Field [max_length 100]) pw); [|field_in|..].
  - intros ->. split.
    + apply AdminLogin_accepts; auto. simpl. lia.
    + apply (AdminCreate_short_password utcnow data []); auto. simpl. lia.
Qed.

Lemma AdminLogin_password_no_minimum_witness :
  (exists obj, init (lax := no_conversion) AdminLogin utc0 (login_kwargs []) = Ok obj
               /\ obj !! "password" = Some (Str []))
  /\ raises (init (lax := no_conversion) AdminCreate utc0 (login_kwargs []))
       "password" string_too_short
  /\ raises (init (lax := no_conversion) AdminLogin utc0 (login_kwargs (repeat 97%N 101)))
       "password" string_too_long
  /\ raises (init (lax := no_conversion) AdminLogin utc0 (login_kwargs (surrogates 3)))
       "password" string_unicode.
Proof.
  split; [|split; [|split]].
  - destruct (AdminLogin_password_no_minimum (lax := no_conversion) utc0
                (login_kwargs []) [] eq_refl) as (_ & _ & _ & H); [defaults_valid|].
    by destruct (H eq_refl).
  - destruct (AdminLogin_password_no_minimum (lax := no_conversion) utc0
                (login_kwargs []) [] eq_refl) as (_ & _ & _ & H); [defaults_valid|].
    by destruct (H eq_refl).
  - destruct (AdminLogin_password_no_minimum (lax := no_conversion) utc0
                (login_kwargs (repeat 97%N 101)) (repeat 97%N 101) eq_refl)
      as (_ & H & _); [defaults_valid|].
    apply H. simpl. lia.
  - destruct (AdminLogin_password_no_minimum (lax := no_conversion) utc0
                (login_kwargs (surrogates 3)) (surrogates 3) eq_refl)
      as (_ & _ & H & _); [defaults_valid|].
    apply H. reflexivity.
Defined.

(** ** Student: the default category *)

Lemma Student_names : NoDup (map field_name (model_fields Student)).
Proof. names_nodup. Qed.

Lemma StudentCreate_names : NoDup (map field_name (model_fields StudentCreate)).
Proof. names_nodup. Qed.

(** A [StudentCreate] whose name and class name validate is accepted as
    soon as its category validates. *)
Lemma StudentCreate_accepts {lax : LaxMode} utcnow data v :
  fields_valid utcnow data [name_field; class_name_field] ->
  validate_field utcnow data category_field = inr v ->
  exists obj, init StudentCreate utcnow data = Ok obj /\ obj !! "category" = Some v.
Proof.
  intros Hval Hv.
  apply Forall_cons in Hval as [Hn Hval]. apply Forall_cons in Hval as [Hc _].
  destruct (validate_python_accepts_lookup utcnow data StudentCreate StudentCreate_names)
    as (obj & Hobj & Hl).
  { repeat (apply Forall_cons; split); [exact Hn|exact Hc| |by apply Forall_nil].
    eexists. exact Hv. }
  exists obj. split; [exact Hobj|].
  apply (Hl category_field); [field_in|exact Hv].
Qed.



(** ** The example of the specification *)

(** C5: the example validates; what it yields carries neither
    [is_active] nor [created_at]; an [Event] built from it, by the
    constructor or by [model_validate], has [is_active = True], the
    reading of the clock as [created_at], and the priority and average
    time of the example. *)
Theorem EventCreate_example {lax : LaxMode} (utcnow utcnow' : clock) :
  init EventCreate utcnow elocution_kwargs = Ok elocution
  /\ elocution !! "is_active" = None
  /\ elocution !! "created_at" = None
  /\ (exists ev, init Event utcnow' elocution = Ok ev
         /\ ev !! "is_active" = Some (Bool true)
         /\ ev !! "created_at" = Some (Datetime (utcnow' "created_at"))
         /\ ev !! "priority" = Some (Int 5)
         /\ ev !! "average_time_minutes" = Some (Int 20))
  /\ (exists ev, model_validate Event utcnow' elocution = Ok ev
         /\ ev !! "is_active" = Some (Bool true)
         /\ ev !! "created_at" = Some (Datetime (utcnow' "created_at"))
         /\ ev !! "priority" = Some (Int 5)
         /\ ev !! "average_time_minutes" = Some (Int 20)).
Proof.
  split; [reflexivity|]. split; [reflexivity|]. split; [reflexivity|].
  split; eexists; (split; [reflexivity|]); repeat split; reflexivity.
Qed.

(** ** ScheduleSlot: order_index, start_time and end_time *)

Lemma ScheduleSlot_names : NoDup (map field_name (model_fields ScheduleSlot)).
Proof. names_nodup. Qed.

Lemma ScheduleSlotCreate_names : NoDup (map field_name (model_fields ScheduleSlotCreate)).
Proof. names_nodup. Qed.

Lemma ScheduleSlotUpdate_names : NoDup (map field_name (model_fields ScheduleSlotUpdate)).
Proof. names_nodup. Qed.

Lemma ScheduleSlotCreate_accepts {lax : LaxMode} utcnow data sid eid st et :
  data !! "schedule_id" = Some (Int sid) -> data !! "event_id" = Some (Int eid) ->
  data !! "start_time" = Some (TimeV st) -> data !! "end_time" = Some (TimeV et) ->
  slot_optionals_valid utcnow data ->
  exists obj, init ScheduleSlotCreate utcnow data = Ok obj
    /\ forall f v, f ∈ model_fields ScheduleSlotCreate ->
                   validate_field utcnow data f = inr v -> obj !! field_name f = Some v.
Proof.
  intros Hs He Hst Het Hopt.
  apply (validate_python_accepts_lookup utcnow data ScheduleSlotCreate ScheduleSlotCreate_names).
  simpl.
  apply Forall_cons; split; [|apply Forall_cons; split;
    [|apply Forall_cons; split; [|apply Forall_cons; split; [|exact Hopt]]]].
  - exists (Int sid). by rewrite (validate_field_given utcnow data ("schedule_id", int_, Field []) _ Hs).
  - exists (Int eid). by rewrite (validate_field_given utcnow data ("event_id", int_, Field []) _ He).
  - exists (TimeV st). by rewrite (validate_field_given utcnow data ("start_time", time_, Field []) _ Hst).
  - exists (TimeV et). by rewrite (validate_field_given utcnow data ("end_time", time_, Field []) _ Het).
Qed.



Lemma order_index_validated {lax : LaxMode} cls utcnow data obj :
  NoDup (map field_name (model_fields cls)) ->
  order_index_field ∈ model_fields cls ->
  validate_python cls utcnow data = Ok obj ->
  exists i, obj !! "order_index" = Some (Int i) /\ 0 <= i.
Proof.
  intros Hnd Hin H.
  destruct (validate_python_Ok_field utcnow data cls Hnd obj _ H Hin) as (v & Hv & Hobj).
  simpl in Hobj.
  apply validate_field_inr in Hv as [(raw & _ & Hv)|[_ Hd]].
  - apply validate_int_inr in Hv as (z & _ & -> & _ & Hge).
    cbn in Hge. exists z. split; [done|lia].
  - cbn in Hd. injection Hd as <-. exists 0. split; [done|lia].
Qed.

Lemma order_index_negative_rejected {lax : LaxMode} cls utcnow data a d v i :
  ("order_index", a, Field [default d; ge 0]) ∈ model_fields cls ->
  a = int_ \/ a = Optional int_ ->
  data !! "order_index" = Some v -> to_int v = inr i -> i < 0 ->
  raises (validate_python cls utcnow data) "order_index" greater_than_equal.
Proof.
  intros Hin Ha Hd Hv Hi.
  apply (validate_python_rejects utcnow data cls _ _ Hin).
  rewrite (validate_field_given utcnow data ("order_index", a, Field [default d; ge 0]) _ Hd).
  cbn [field_annotation field_info fst snd].
  assert (validate int_ (Field [default d; ge 0]) v = inl greater_than_equal) as H.
  { simpl. rewrite Hv. unfold check_int. cbn. by destruct (Z.leb_spec 0 i); [lia|]. }
  destruct Ha as [->| ->]; [exact H|].
  simpl in *. destruct v; try exact H. discriminate Hv.
Qed.




(** ** Student: the category *)

Lemma StudentUpdate_names : NoDup (map field_name (model_fields StudentUpdate)).
Proof. names_nodup. Qed.

(** The enum has exactly the four values of the file, each once. *)
Lemma StudentCategory_values :
  map value members
    = [lit "Sub Junior"; lit "Junior"; lit "Senior"; lit "Super Senior"]
  /\ NoDup (map value members)
  /\ forall c, c ∈ members.
Proof.
  split; [reflexivity|]. split.
  - apply (bool_decide_unpack _). vm_compute. exact I.
  - intros c. destruct c; field_in.
Qed.

Lemma validate_StudentCategory_rejects {lax : LaxMode} fi v :
  not_a_category v -> validate StudentCategory_ fi v = inl (category_error v).
Proof.
  intros H. destruct v; simpl; try done.
  - destruct (encodable s); [|done].
    rewrite of_value_None; [done|]. intros c ->. by destruct (H c).
  - by destruct (H c).
Qed.

Lemma validate_StudentCategory_accepts {lax : LaxMode} fi v c :
  v = Enum c \/ v = Str (value c) -> validate StudentCategory_ fi v = inr (Enum c).
Proof.
  intros [->| ->]; simpl; [done|]. by rewrite value_encodable, of_value_value.
Qed.

Lemma category_rejected {lax : LaxMode} cls utcnow data v :
  category_field ∈ model_fields cls ->
  data !! "category" = Some v -> not_a_category v ->
  raises (validate_python cls utcnow data) "category" (category_error v).
Proof.
  intros Hin Hd Hv.
  apply (validate_python_rejects utcnow data cls category_field _ Hin).
  rewrite (validate_field_given utcnow data category_field _ Hd).
  by apply validate_StudentCategory_rejects.
Qed.

Lemma category_validated {lax : LaxMode} cls utcnow data obj :
  NoDup (map field_name (model_fields cls)) ->
  category_field ∈ model_fields cls ->
  validate_python cls utcnow data = Ok obj ->
  exists c, obj !! "category" = Some (Enum c).
Proof.
  intros Hnd Hin H.
  destruct (validate_python_Ok_field utcnow data cls Hnd obj _ H Hin) as (v & Hv & Hobj).
  change (field_name category_field) with "category" in Hobj.
  apply validate_field_inr in Hv as [(raw & _ & Hv)|[_ Hd]].
  - apply validate_StudentCategory_inr in Hv as (c & -> & _). eauto.
  - cbn in Hd. injection Hd as <-. eauto.
Qed.




(** ** EventParticipant: no uniqueness of (student_id, event_id) *)

(** C7: for every student and event, two [EventParticipant] records with
    the ids 1 and 2 and that same pair are both constructed without error;
    they are different records; the only column set the declaration makes
    unique is the primary key, on which they differ; and the input shape
    [EventParticipantCreate] accepts the pair as often as it is given. *)
Theorem duplicate_assignment_accepted {lax : LaxMode}
  (utcnow : clock) (student_id event_id admin_id : Z) :
  exists r1 r2,
    init EventParticipant utcnow (participant_kwargs 1 student_id event_id admin_id) = Ok r1
    /\ init EventParticipant utcnow (participant_kwargs 2 student_id event_id admin_id) = Ok r2
    /\ r1 <> r2
    /\ r1 !! "student_id" = Some (Int student_id)
    /\ r2 !! "student_id" = Some (Int student_id)
    /\ r1 !! "event_id" = Some (Int event_id)
    /\ r2 !! "event_id" = Some (Int event_id)
    /\ unique_columns EventParticipant = [["id"]]
    /\ Forall (fun cols => agree_on cols r1 r2 = false) (unique_columns EventParticipant)
    /\ init EventParticipantCreate utcnow (assignment_kwargs student_id event_id admin_id)
       = Ok (assignment_kwargs student_id event_id admin_id).
Proof.
  eexists. eexists. split; [reflexivity|]. split; [reflexivity|].
  split.
  { intros H. apply (f_equal (fun m : dict => m !! "id")) in H. discriminate H. }
  repeat (split; [reflexivity|]). split; [|reflexivity].
  repeat constructor.
Qed.

(** ** Sparse updates *)

Lemma AdminUpdate_names : NoDup (map field_name (model_fields AdminUpdate)).
Proof. names_nodup. Qed.

Lemma EventUpdate_names : NoDup (map field_name (model_fields EventUpdate)).
Proof. names_nodup. Qed.

Lemma Update_shapes_sparse cls :
  cls ∈ [AdminUpdate; StudentUpdate; EventUpdate; ScheduleSlotUpdate] ->
  sparse cls /\ table cls = false /\ NoDup (map field_name (model_fields cls)).
Proof.
  intros H. repeat (apply elem_of_cons in H as [->|H]); [| | | |by apply elem_of_nil in H].
  - split; [|split; [done|apply AdminUpdate_names]].
    repeat (apply Forall_cons; split; [by eauto|]). by apply Forall_nil.
  - split; [|split; [done|apply StudentUpdate_names]].
    repeat (apply Forall_cons; split; [by eauto|]). by apply Forall_nil.
  - split; [|split; [done|apply EventUpdate_names]].
    repeat (apply Forall_cons; split; [by eauto|]). by apply Forall_nil.
  - split; [|split; [done|apply ScheduleSlotUpdate_names]].
    repeat (apply Forall_cons; split; [by eauto|]). by apply Forall_nil.
Qed.

Section ApplyUpdate.
Variable update : dict.

Lemma apply_fields_unchanged fs entity k :
  update !! k = None \/ update !! k = Some None_ ->
  apply_fields fs update entity !! k = entity !! k.
Proof.
  intros Hk. unfold apply_fields.
  generalize dependent entity.
  induction fs as [|f fs IH]; intros entity; simpl; [done|].
  rewrite IH.
  destruct (decide (field_name f = k)) as [->|Hne].
  - by destruct Hk as [-> | ->].
  - destruct (update !! field_name f) as [[]|]; by rewrite ?lookup_insert_ne.
Qed.

Lemma apply_fields_kept fs entity k v :
  update !! k = Some v -> entity !! k = Some v ->
  apply_fields fs update entity !! k = Some v.
Proof.
  intros Hk. unfold apply_fields.
  generalize dependent entity.
  induction fs as [|f fs IH]; intros entity He; simpl; [done|].
  apply IH.
  destruct (decide (field_name f = k)) as [->|Hne].
  - rewrite Hk. destruct v; by rewrite ?lookup_insert_eq.
  - destruct (update !! field_name f) as [[]|]; by rewrite ?lookup_insert_ne.
Qed.

Lemma apply_fields_assigned fs entity k v :
  k ∈ map field_name fs ->
  update !! k = Some v -> v <> None_ ->
  apply_fields fs update entity !! k = Some v.
Proof.
  intros Hin Hk Hv.
  generalize dependent entity.
  induction fs as [|f fs IH]; intros entity.
  - by apply elem_of_nil in Hin.
  - destruct (decide (field_name f = k)) as [Heq|Hne].
    + unfold apply_fields. simpl. rewrite Heq, Hk.
      replace (match v with None_ => entity | _ => <[k:=v]> entity end)
        with (<[k:=v]> entity) by by destruct v.
      apply (apply_fields_kept fs (<[k:=v]> entity) k v Hk), lookup_insert_eq.
    + unfold apply_fields. simpl. apply IH.
      simpl in Hin. apply elem_of_cons in Hin as [Heq|Hin]; [by subst|done].
Qed.

End ApplyUpdate.

Lemma validate_python_Ok_dom {lax : LaxMode} cls utcnow data obj k :
  validate_python cls utcnow data = Ok obj ->
  k ∉ map field_name (model_fields cls) -> obj !! k = None.
Proof.
  unfold validate_python. intros H Hk.
  pose proof (validate_fields_lookup_None utcnow data (model_fields cls) k Hk) as Hl.
  destruct (validate_fields utcnow data (model_fields cls)) as [[|e errors] o];
    [|discriminate].
  by injection H as <-.
Qed.

(** An argument that is omitted or [None] leaves [None] in a sparse
    shape, or nothing when it names no field. *)
Lemma sparse_omitted {lax : LaxMode} cls utcnow data update k :
  sparse cls -> NoDup (map field_name (model_fields cls)) ->
  validate_python cls utcnow data = Ok update ->
  data !! k = None \/ data !! k = Some None_ ->
  update !! k = None \/ update !! k = Some None_.
Proof.
  intros Hsp Hnd H Hk.
  destruct (decide (k ∈ map field_name (model_fields cls))) as [Hin|Hnin].
  - right. apply list_elem_of_fmap in Hin as (f & -> & Hin).
    destruct (validate_python_Ok_field utcnow data cls Hnd update f H Hin)
      as (v & Hv & ->).
    unfold sparse in Hsp. rewrite Forall_forall in Hsp.
    destruct (Hsp f Hin) as [[a Ha] Hdef].
    unfold validate_field in Hv. destruct Hk as [Hk|Hk]; rewrite Hk in Hv.
    + unfold get_default in Hv. rewrite Hdef in Hv. by injection Hv as <-.
    + rewrite Ha in Hv. simpl in Hv. by injection Hv as <-.
  - left. by apply (validate_python_Ok_dom cls utcnow data).
Qed.

(** C6, on the modelled [apply_update]: for each of the four Update
    shapes and every entity, an attribute whose argument was omitted or
    [None] when the shape was built, or for which the shape holds no value
    or [None], keeps its previous value; an attribute for which the shape
    holds a value other than [None] gets that value. *)
Theorem sparse_update_changes_only_provided {lax : LaxMode}
  (cls : ModelClass) (utcnow : clock) (data update entity : dict) (k : string) :
  cls ∈ [AdminUpdate; StudentUpdate; EventUpdate; ScheduleSlotUpdate] ->
  init cls utcnow data = Ok update ->
  (data !! k = None \/ data !! k = Some None_ ->
     apply_update cls update entity !! k = entity !! k)
  /\ (update !! k = None \/ update !! k = Some None_ ->
        apply_update cls update entity !! k = entity !! k)
  /\ (forall v, update !! k = Some v -> v <> None_ ->
        apply_update cls update entity !! k = Some v).
Proof.
  intros Hcls H.
  destruct (Update_shapes_sparse cls Hcls) as (Hsp & Htab & Hnd).
  unfold init in H. rewrite Htab in H.
  split; [|split].
  - intros Hk. apply apply_fields_unchanged.
    by apply (sparse_omitted cls utcnow data).
  - apply apply_fields_unchanged.
  - intros v Hv Hne. apply apply_fields_assigned; [|done|done].
    destruct (decide (k ∈ map field_name (model_fields cls))) as [Hin|Hnin]; [done|].
    rewrite (validate_python_Ok_dom cls utcnow data update k H Hnin) in Hv. discriminate.
Qed.

Lemma sparse_update_changes_only_provided_witness :
  apply_update StudentUpdate promoted student_row !! "name" = Some (Str (lit "Amina"))
  /\ apply_update StudentUpdate promoted student_row !! "id" = Some (Int 7)
  /\ apply_update StudentUpdate promoted student_row !! "category" = Some (Enum SENIOR).
Proof.
  assert (StudentUpdate ∈ [AdminUpdate; StudentUpdate; EventUpdate; ScheduleSlotUpdate])
    as Hcls by field_in.
  assert (init (lax := no_conversion) StudentUpdate utc0 promote = Ok promoted) as H
    by reflexivity.
  split; [|split].
  - destruct (sparse_update_changes_only_provided StudentUpdate utc0 promote promoted
                student_row "name" Hcls H) as (Hframe & _ & _).
    rewrite Hframe; [reflexivity | left; reflexivity].
  - destruct (sparse_update_changes_only_provided StudentUpdate utc0 promote promoted
                student_row "id" Hcls H) as (Hframe & _ & _).
    rewrite Hframe; [reflexivity | left; reflexivity].
  - destruct (sparse_update_changes_only_provided StudentUpdate utc0 promote promoted
                student_row "category" Hcls H) as (_ & _ & Hset).
    apply Hset; [reflexivity | discriminate].
Defined.

(** ** The validators and the declared bounds *)

Lemma validate_idempotent {lax : LaxMode} a fi v w :
  validate a fi v = inr w -> validate a fi w = inr w.
Proof.
  revert v w. induction a; intros v w H.
  - simpl in H. destruct (to_int v) as [e|z]; [discriminate|]. simpl.
    by destruct (check_int_inr fi z w H) as (-> & _ & _).
  - simpl in H. destruct (to_str v) as [e|s]; [discriminate|]. simpl.
    by destruct (check_str_inr fi s w H) as (-> & _ & _).
  - simpl in H. destruct (to_bool v); [discriminate|]. by injection H as <-.
  - simpl in H. destruct (to_datetime v); [discriminate|]. by injection H as <-.
  - simpl in H. destruct (to_time v); [discriminate|]. by injection H as <-.
  - by apply validate_StudentCategory_inr in H as (c & -> & _).
  - apply validate_Optional_inr in H as [[_ ->]|[_ H]]; [done|].
    apply IHa in H. simpl. by destruct w.
Qed.

Lemma validate_conforms {lax : LaxMode} a fi v w :
  validate a fi v = inr w -> conforms a fi w.
Proof.
  revert v w. induction a; intros v w H; simpl.
  - apply validate_int_inr in H as (z & _ & -> & Hle & Hge).
    unfold check_le, check_ge in *. exists z. split; [done|].
    split; intros b Hb; rewrite Hb in *; lia.
  - apply validate_str_inr in H as (s & _ & -> & Hmin & Hmax).
    unfold check_min_length, check_max_length in *. exists s. split; [done|].
    split; intros n Hn; rewrite Hn in *; by apply Nat.leb_le.
  - simpl in H. destruct (to_bool v); [discriminate|]. injection H as <-. eauto.
  - simpl in H. destruct (to_datetime v); [discriminate|]. injection H as <-. eauto.
  - simpl in H. destruct (to_time v); [discriminate|]. injection H as <-. eauto.
  - apply validate_StudentCategory_inr in H as (c & -> & _). eauto.
  - apply validate_Optional_inr in H as [[_ ->]|[_ H]]; [by left|].
    right. by apply IHa with v.
Qed.

Lemma validate_fixpoint_conforms {lax : LaxMode} a fi v :
  validate a fi v = inr v -> conforms a fi v.
Proof. apply validate_conforms. Qed.

(** The validator of a field looks at the annotation and the bounds
    only. *)
Lemma validate_ext {lax : LaxMode} a fi fi' v :
  f_ge fi = f_ge fi' -> f_le fi = f_le fi' ->
  f_min_length fi = f_min_length fi' -> f_max_length fi = f_max_length fi' ->
  validate a fi v = validate a fi' v.
Proof.
  intros Hge Hle Hmin Hmax. revert v. induction a; intros v; simpl; try done.
  - unfold check_int, check_le, check_ge. by rewrite Hge, Hle.
  - unfold check_str, length_constrained, check_min_length, check_max_length.
    by rewrite Hmin, Hmax.
  - destruct v; auto.
Qed.

(** ** Facts about every class of the file *)

Ltac class_cases H :=
  unfold classes, tables, schemas, update_shapes, create_pairs in H; simpl in H;
  repeat (apply elem_of_cons in H as [->|H]); [..|by apply elem_of_nil in H].

Lemma classes_names_NoDup cls : cls ∈ classes -> NoDup (field_names cls).
Proof. intros H. class_cases H; names_nodup. Qed.

Lemma tables_classes cls : cls ∈ tables -> cls ∈ classes.
Proof. intros H. apply elem_of_app. by left. Qed.

Lemma schemas_classes cls : cls ∈ schemas -> cls ∈ classes.
Proof. intros H. apply elem_of_app. by right. Qed.

Lemma tables_table cls : cls ∈ tables -> table cls = true.
Proof. intros H. by class_cases H. Qed.

Lemma schemas_table cls : cls ∈ schemas -> table cls = false.
Proof. intros H. by class_cases H. Qed.

Lemma classes_defaults_pass {lax : LaxMode} cls f now d :
  cls ∈ classes -> f ∈ model_fields cls ->
  get_default now (field_info f) = Some d ->
  validate (field_annotation f) (field_info f) d = inr d.
Proof.
  intros H Hf Hd. class_cases H; simpl in Hf;
    repeat (apply elem_of_cons in Hf as [->|Hf]); try (by apply elem_of_nil in Hf);
    cbn in Hd; try discriminate Hd; by injection Hd as <-.
Qed.

Lemma field_unique (fs : list field) f g :
  NoDup (map field_name fs) -> f ∈ fs -> g ∈ fs -> field_name f = field_name g -> f = g.
Proof.
  induction fs as [|h fs IH]; simpl; intros Hnd Hf Hg Heq.
  - by apply elem_of_nil in Hf.
  - apply NoDup_cons in Hnd as [Hh Hnd].
    apply elem_of_cons in Hf as [->|Hf]; apply elem_of_cons in Hg as [->|Hg]; auto.
    + destruct Hh. rewrite Heq. apply list_elem_of_fmap. eauto.
    + destruct Hh. rewrite <- Heq. apply list_elem_of_fmap. eauto.
Qed.

Lemma str_fields_shape cls name a fi n :
  cls ∈ classes -> (name, a, fi) ∈ model_fields cls -> f_max_length fi = Some n ->
  (a = str_ \/ a = Optional str_)
  /\ forall m, f_min_length fi = Some m -> (m <= n)%nat.
Proof.
  intros H Hf Hn. class_cases H; simpl in Hf;
    repeat (apply elem_of_cons in Hf as [[= -> -> ->]|Hf]); try (by apply elem_of_nil in Hf);
    cbn in Hn; try discriminate Hn; injection Hn as <-;
    (split; [auto|intros m Hm; cbn in Hm; try discriminate Hm; injection Hm as <-; lia]).
Qed.

Lemma int_fields_shape cls name a fi b :
  cls ∈ classes -> (name, a, fi) ∈ model_fields cls ->
  f_ge fi = Some b \/ f_le fi = Some b ->
  (a = int_ \/ a = Optional int_)
  /\ forall lo hi, f_ge fi = Some lo -> f_le fi = Some hi -> lo <= hi.
Proof.
  intros H Hf Hb. class_cases H; simpl in Hf;
    repeat (apply elem_of_cons in Hf as [[= -> -> ->]|Hf]); try (by apply elem_of_nil in Hf);
    cbn in Hb; destruct Hb as [Hb|Hb]; try discriminate Hb;
    (split; [auto|intros lo hi Hlo Hhi; cbn in Hlo, Hhi;
                  try discriminate Hlo; try discriminate Hhi;
                  injection Hlo as <-; injection Hhi as <-; lia]).
Qed.

Lemma validate_too_long {lax : LaxMode} a fi s n :
  a = str_ \/ a = Optional str_ ->
  f_max_length fi = Some n -> (forall m, f_min_length fi = Some m -> (m <= n)%nat) ->
  (n < len s)%nat ->
  validate a fi (Str s) = inl (length_error string_too_long s).
Proof.
  intros Ha Hmax Hmin Hlen.
  assert (validate str_ fi (Str s) = inl (length_error string_too_long s)) as H
    by (simpl; by apply check_str_long with n).
  by destruct Ha as [->| ->].
Qed.

Lemma validate_below {lax : LaxMode} a fi z lo :
  a = int_ \/ a = Optional int_ ->
  f_ge fi = Some lo -> (forall hi, f_le fi = Some hi -> lo <= hi) -> z < lo ->
  validate a fi (Int z) = inl greater_than_equal.
Proof.
  intros Ha Hge Hle Hz.
  assert (validate int_ fi (Int z) = inl greater_than_equal) as H.
  { simpl. unfold check_int, check_le, check_ge. rewrite Hge.
    destruct (f_le fi) as [hi|] eqn:E.
    - specialize (Hle hi eq_refl).
      rewrite (proj2 (Z.leb_le z hi)) by lia. simpl.
      by rewrite (proj2 (Z.leb_gt lo z)) by lia.
    - simpl. by rewrite (proj2 (Z.leb_gt lo z)) by lia. }
  by destruct Ha as [->| ->].
Qed.

Lemma validate_above {lax : LaxMode} a fi z hi :
  a = int_ \/ a = Optional int_ -> f_le fi = Some hi -> hi < z ->
  validate a fi (Int z) = inl less_than_equal.
Proof.
  intros Ha Hle Hz.
  assert (validate int_ fi (Int z) = inl less_than_equal) as H.
  { simpl. unfold check_int, check_le. rewrite Hle.
    by rewrite (proj2 (Z.leb_gt z hi)) by lia. }
  by destruct Ha as [->| ->].
Qed.

(** X1: the four members have four different values, so the lookup by
    value and [value] are inverse to each other, and the validator of a
    category field turns the value of a member into that member. *)
Theorem StudentCategory_value_roundtrip {lax : LaxMode} :
  (forall c, of_value (value c) = Some c)
  /\ (forall s c, of_value s = Some c -> value c = s)
  /\ (forall c c', value c = value c' -> c = c')
  /\ (forall fi c, validate StudentCategory_ fi (Str (value c)) = inr (Enum c)).
Proof.
  split; [apply of_value_value|]. split; [|split].
  - intros s c H. unfold of_value in H. apply find_some in H as [_ H].
    by apply bool_decide_eq_true in H.
  - intros c c' H. assert (Some c = Some c') as E; [|by injection E].
    by rewrite <- (of_value_value c), <- (of_value_value c'), H.
  - intros fi c. simpl. by rewrite value_encodable, of_value_value.
Qed.

Lemma StudentCategory_value_roundtrip_witness :
  value SENIOR = lit "Senior" /\ (value JUNIOR = value JUNIOR -> JUNIOR = JUNIOR).
Proof.
  split.
  - apply (proj1 (proj2 (StudentCategory_value_roundtrip (lax := no_conversion)))
             (lit "Senior") SENIOR).
    reflexivity.
  - apply (proj1 (proj2 (proj2 (StudentCategory_value_roundtrip (lax := no_conversion))))
             JUNIOR JUNIOR).
Defined.

(** X2: in every class of the file, the default of a field meets the
    bounds of that same field.  (Defaults are not validated, so nothing
    else would catch one that does not.) *)
Theorem defaults_conform (cls : ModelClass) (f : field) (now : datetime) (d : val) :
  cls ∈ classes -> f ∈ model_fields cls ->
  get_default now (field_info f) = Some d ->
  conforms (field_annotation f) (field_info f) d.
Proof.
  intros Hcls Hf Hd.
  by apply (validate_fixpoint_conforms (lax := no_conversion)),
    (classes_defaults_pass cls f now).
Qed.

Lemma defaults_conform_witness :
  conforms (field_annotation priority_field) (field_info priority_field) (Int 1).
Proof.
  apply (defaults_conform Event priority_field 0 (Int 1));
    [unfold classes, tables; field_in | field_in | reflexivity].
Defined.

(** X3: an instance that validation accepted, of any of the seventeen
    persisted models and input shapes, holds under the name of each field
    a value of the annotated type within the declared bounds, whatever
    the arguments were and whatever lax mode made of them. *)
Theorem validated_instance_conforms {lax : LaxMode}
  (cls : ModelClass) (utcnow : clock) (data obj : dict) (f : field) :
  cls ∈ classes -> validate_python cls utcnow data = Ok obj -> f ∈ model_fields cls ->
  exists v, obj !! field_name f = Some v
            /\ conforms (field_annotation f) (field_info f) v.
Proof.
  intros Hcls H Hf.
  destruct (validate_python_Ok_field utcnow data cls (classes_names_NoDup cls Hcls) obj f H Hf)
    as (v & Hv & Hobj).
  exists v. split; [exact Hobj|].
  apply validate_field_inr in Hv as [(raw & _ & Hv)|[_ Hd]].
  - by apply validate_conforms with raw.
  - by apply validate_fixpoint_conforms,
      (classes_defaults_pass cls f (utcnow (field_name f)) v Hcls Hf).
Qed.

Lemma validated_instance_conforms_witness :
  exists v, elocution !! "priority" = Some v
            /\ conforms int_ (Field [default (Int 1); ge 1; le 10]) v.
Proof.
  apply (validated_instance_conforms (lax := no_conversion) EventCreate utc0
           elocution_kwargs elocution priority_field);
    [unfold classes, tables, schemas; field_in | reflexivity | field_in].
Defined.

(** X4: in each of the seventeen persisted models and input shapes, at
    every field with a maximum length, a [str] argument longer than that
    is rejected by validation: with [string_too_long], or with
    [string_unicode] if it holds a lone surrogate. *)
Theorem longer_than_max_length_rejected {lax : LaxMode}
  (cls : ModelClass) (utcnow : clock) (data : dict)
  (name : string) (a : annotation) (fi : FieldInfo) (n : nat) (s : str) :
  cls ∈ classes -> (name, a, fi) ∈ model_fields cls -> f_max_length fi = Some n ->
  data !! name = Some (Str s) -> (n < len s)%nat ->
  raises (validate_python cls utcnow data) name (length_error string_too_long s).
Proof.
  intros Hcls Hf Hmax Hd Hlen.
  destruct (str_fields_shape cls name a fi n Hcls Hf Hmax) as [Ha Hmin].
  apply (validate_python_rejects utcnow data cls (name, a, fi) _ Hf).
  rewrite (validate_field_given utcnow data (name, a, fi) _ Hd).
  by apply validate_too_long with n.
Qed.

Lemma longer_than_max_length_rejected_witness :
  raises (init (lax := no_conversion) StudentCreate utc0
            (<["class_name" := Str (repeat 55%N 51)]> student_kwargs))
    "class_name" string_too_long
  /\ raises (init (lax := no_conversion) StudentCreate utc0
               (<["class_name" := Str (surrogates 51)]> student_kwargs))
       "class_name" string_unicode.
Proof.
  split.
  - apply (longer_than_max_length_rejected (lax := no_conversion) StudentCreate utc0
             (<["class_name" := Str (repeat 55%N 51)]> student_kwargs)
             "class_name" str_ (Field [max_length 50]) 50 (repeat 55%N 51));
      [unfold classes, tables, schemas; field_in | field_in | reflexivity | reflexivity
      | simpl; lia].
  - apply (longer_than_max_length_rejected (lax := no_conversion) StudentCreate utc0
             (<["class_name" := Str (surrogates 51)]> student_kwargs)
             "class_name" str_ (Field [max_length 50]) 50 (surrogates 51));
      [unfold classes, tables, schemas; field_in | field_in | reflexivity | reflexivity
      | simpl; lia].
Defined.

(** X5: in every class of the file, at every field with a lower bound an
    [int] argument below it is rejected by validation with
    [greater_than_equal], and at every field with an upper bound an [int]
    argument above it is rejected with [less_than_equal]. *)
Theorem out_of_bounds_rejected {lax : LaxMode}
  (cls : ModelClass) (utcnow : clock) (data : dict)
  (name : string) (a : annotation) (fi : FieldInfo) (z : Z) :
  cls ∈ classes -> (name, a, fi) ∈ model_fields cls -> data !! name = Some (Int z) ->
  (forall lo, f_ge fi = Some lo -> z < lo ->
     raises (validate_python cls utcnow data) name greater_than_equal)
  /\ (forall hi, f_le fi = Some hi -> hi < z ->
        raises (validate_python cls utcnow data) name less_than_equal).
Proof.
  intros Hcls Hf Hd. split.
  - intros lo Hlo Hz.
    destruct (int_fields_shape cls name a fi lo Hcls Hf (or_introl Hlo)) as [Ha Hb].
    apply (validate_python_rejects utcnow data cls (name, a, fi) _ Hf).
    rewrite (validate_field_given utcnow data (name, a, fi) _ Hd).
    apply validate_below with lo; auto.
  - intros hi Hhi Hz.
    destruct (int_fields_shape cls name a fi hi Hcls Hf (or_intror Hhi)) as [Ha _].
    apply (validate_python_rejects utcnow data cls (name, a, fi) _ Hf).
    rewrite (validate_field_given utcnow data (name, a, fi) _ Hd).
    by apply validate_above with hi.
Qed.

Lemma out_of_bounds_rejected_witness :
  raises (init (lax := no_conversion) EventUpdate utc0 (<["max_participants" := Int 0]> ∅))
    "max_participants" greater_than_equal
  /\ raises (init (lax := no_conversion) EventUpdate utc0 (<["priority" := Int 11]> ∅))
       "priority" less_than_equal.
Proof.
  split.
  - apply (out_of_bounds_rejected (lax := no_conversion) EventUpdate utc0
             (<["max_participants" := Int 0]> ∅)
             "max_participants" (Optional int_) (Field [default None_; ge 1]) 0)
      with (lo := 1);
      [unfold classes, tables, schemas; field_in | field_in | reflexivity | reflexivity | lia].
  - apply (out_of_bounds_rejected (lax := no_conversion) EventUpdate utc0
             (<["priority" := Int 11]> ∅)
             "priority" (Optional int_) (Field [default None_; ge 1; le 10]) 11)
      with (hi := 10);
      [unfold classes, tables, schemas; field_in | field_in | reflexivity | reflexivity | lia].
Defined.

(** ** What validation returns *)

Lemma table_construct_lookup_None utcnow values fs k :
  k ∉ map field_name fs -> table_construct_fields utcnow values fs !! k = None.
Proof.
  induction fs as [|f fs IH]; simpl; intros Hk; [apply lookup_empty|].
  apply not_elem_of_cons in Hk as [Hne Hk].
  destruct (values !! field_name f).
  - rewrite lookup_insert_ne by congruence. auto.
  - destruct (get_default _ _); [rewrite lookup_insert_ne by congruence|]; auto.
Qed.

Lemma table_construct_lookup utcnow values fs f :
  NoDup (map field_name fs) -> f ∈ fs ->
  table_construct_fields utcnow values fs !! field_name f =
    match values !! field_name f with
    | Some v => Some v
    | None => get_default (utcnow (field_name f)) (field_info f)
    end.
Proof.
  intros Hnd Hf. destruct (values !! field_name f) as [v|] eqn:Ev.
  - by apply table_construct_given.
  - destruct (get_default (utcnow (field_name f)) (field_info f)) as [d|] eqn:Ed.
    + by apply table_construct_default.
    + clear -Hnd Hf Ev Ed. induction fs as [|g fs IH]; simpl.
      * by apply elem_of_nil in Hf.
      * simpl in Hnd. apply NoDup_cons in Hnd as [Hg Hnd].
        apply elem_of_cons in Hf. destruct Hf as [Heq|Hf].
        -- subst g. rewrite Ev, Ed. by apply table_construct_lookup_None.
        -- assert (field_name g <> field_name f) as Hne.
           { intros Heq. apply Hg. rewrite Heq. apply list_elem_of_fmap. eauto. }
           destruct (values !! field_name g).
           ++ rewrite lookup_insert_ne by done. auto.
           ++ destruct (get_default _ (field_info g));
                [rewrite lookup_insert_ne by done|]; auto.
Qed.

(** An instance that holds, for every field, a value its validator
    leaves as it is, and nothing else, validates to itself. *)
Lemma validate_fields_fixpoint {lax : LaxMode} utcnow obj fs :
  (forall g, g ∈ fs -> exists w, obj !! field_name g = Some w
       /\ validate (field_annotation g) (field_info g) w = inr w) ->
  (validate_fields utcnow obj fs).1 = []
  /\ forall k, k ∈ map field_name fs -> (validate_fields utcnow obj fs).2 !! k = obj !! k.
Proof.
  induction fs as [|f fs IH]; intros H.
  - split; [done|]. intros k Hk. by apply elem_of_nil in Hk.
  - destruct IH as [IH1 IH2]; [intros g Hg; apply H; by apply list_elem_of_further|].
    destruct (H f) as (w & Hw & Hv); [apply list_elem_of_here|].
    simpl.
    destruct (validate_fields utcnow obj fs) as [errors o]; simpl in *.
    unfold validate_field. rewrite Hw, Hv. simpl. split; [done|].
    intros k Hk. destruct (decide (k = field_name f)) as [->|Hne].
    + by rewrite lookup_insert_eq, Hw.
    + rewrite lookup_insert_ne by done. apply IH2.
      apply elem_of_cons in Hk as [?|?]; done.
Qed.

Lemma validate_python_fixpoint {lax : LaxMode} cls utcnow obj :
  (forall g, g ∈ model_fields cls -> exists w, obj !! field_name g = Some w
       /\ validate (field_annotation g) (field_info g) w = inr w) ->
  (forall k, k ∉ field_names cls -> obj !! k = None) ->
  validate_python cls utcnow obj = Ok obj.
Proof.
  intros H Hdom. destruct (validate_fields_fixpoint utcnow obj _ H) as [H1 H2].
  pose proof (validate_fields_lookup_None utcnow obj (model_fields cls)) as H3.
  unfold validate_python.
  destruct (validate_fields utcnow obj (model_fields cls)) as [errors o]; simpl in *.
  subst errors. f_equal. apply map_eq. intros k.
  destruct (decide (k ∈ field_names cls)) as [Hk|Hk].
  - by apply H2.
  - rewrite (H3 k Hk). symmetry. by apply Hdom.
Qed.

(** What an accepted instance holds under the name of a field passes the
    validator of the field unchanged. *)
Lemma validated_field_fixpoint {lax : LaxMode} cls utcnow data obj g :
  cls ∈ classes -> validate_python cls utcnow data = Ok obj -> g ∈ model_fields cls ->
  exists w, obj !! field_name g = Some w
            /\ validate (field_annotation g) (field_info g) w = inr w.
Proof.
  intros Hcls H Hg.
  destruct (validate_python_Ok_field utcnow data cls (classes_names_NoDup cls Hcls) obj g H Hg)
    as (w & Hv & Hobj).
  exists w. split; [exact Hobj|].
  apply validate_field_inr in Hv as [(raw & _ & Hv)|[_ Hd]].
  - by apply validate_idempotent with raw.
  - by apply (classes_defaults_pass cls g (utcnow (field_name g))).
Qed.



(** X10: validating again what validation accepted gives the same
    instance, whatever the clock reads by then. *)
Theorem revalidation_is_identity {lax : LaxMode}
  (cls : ModelClass) (utcnow utcnow' : clock) (data obj : dict) :
  cls ∈ classes -> validate_python cls utcnow data = Ok obj ->
  validate_python cls utcnow' obj = Ok obj.
Proof.
  intros Hcls H. apply validate_python_fixpoint.
  - intros g Hg. by apply (validated_field_fixpoint cls utcnow data).
  - intros k Hk. by apply (validate_python_Ok_dom cls utcnow data).
Qed.

Lemma revalidation_is_identity_witness :
  validate_python (lax := no_conversion) EventCreate (fun _ => 7) elocution = Ok elocution.
Proof.
  apply (revalidation_is_identity EventCreate utc0 (fun _ => 7) elocution_kwargs elocution);
    [unfold classes, tables, schemas; field_in | reflexivity].
Defined.

(** ** Validating an instance *)

Lemma read_fields_lookup_None cls obj fs k :
  k ∉ map field_name fs -> read_fields cls obj fs !! k = None.
Proof.
  induction fs as [|f fs IH]; simpl; intros Hk; [apply lookup_empty|].
  apply not_elem_of_cons in Hk as [Hne Hk].
  destruct (getattr cls obj (field_name f));
    [rewrite lookup_insert_ne by congruence|]; auto.
Qed.

Lemma read_fields_lookup cls obj fs k :
  k ∈ map field_name fs -> read_fields cls obj fs !! k = getattr cls obj k.
Proof.
  induction fs as [|f fs IH]; simpl; intros Hk; [by apply elem_of_nil in Hk|].
  destruct (decide (k = field_name f)) as [->|Hne].
  - destruct (getattr cls obj (field_name f)) as [v|] eqn:E.
    + apply lookup_insert_eq.
    + destruct (decide (field_name f ∈ map field_name fs)) as [Hin|Hnin]; [auto|].
      by apply read_fields_lookup_None.
  - apply elem_of_cons in Hk as [?|Hk]; [done|].
    destruct (getattr cls obj (field_name f));
      [rewrite lookup_insert_ne by done|]; auto.
Qed.

(** An instance in which every field is set and nothing else is reads as
    its own [__dict__]. *)
Lemma read_fields_all_set cls obj :
  (forall g, g ∈ model_fields cls -> is_Some (obj !! field_name g)) ->
  (forall k, k ∉ field_names cls -> obj !! k = None) ->
  read_fields cls obj (model_fields cls) = obj.
Proof.
  intros Hset Hdom. apply map_eq. intros k.
  destruct (decide (k ∈ field_names cls)) as [Hk|Hk].
  - rewrite read_fields_lookup by done. unfold getattr.
    apply list_elem_of_fmap in Hk as (g & -> & Hg).
    by destruct (Hset g Hg) as [v ->].
  - rewrite read_fields_lookup_None by done. symmetry. by apply Hdom.
Qed.

(** ** From a Create shape to the table class *)

Lemma same_validator_spec {lax : LaxMode} f g :
  same_validator f g = true ->
  field_name f = field_name g
  /\ forall v, validate (field_annotation f) (field_info f) v
               = validate (field_annotation g) (field_info g) v.
Proof.
  unfold same_validator. rewrite !andb_true_iff, !bool_decide_eq_true.
  intros (((((Hn & Ha) & Hge) & Hle) & Hmin) & Hmax). split; [done|].
  intros v. rewrite Ha. by apply validate_ext.
Qed.

Section Pipeline.
Context {lax : LaxMode}.
Variables C T : ModelClass.
Hypothesis C_class : C ∈ classes.
Hypothesis T_class : T ∈ classes.
Hypothesis C_covered : covers C T = true.

Lemma covers_field f :
  f ∈ model_fields C -> exists g, g ∈ model_fields T /\ same_validator f g = true.
Proof.
  intros Hf. unfold covers in C_covered. apply andb_true_iff in C_covered as [H _].
  rewrite forallb_forall in H. apply list_elem_of_In in Hf.
  apply H, existsb_exists in Hf as (g & Hg & Hs). exists g.
  split; [by apply list_elem_of_In|done].
Qed.

Lemma covers_default g :
  g ∈ model_fields T -> field_name g ∉ field_names C ->
  exists d, forall now, get_default now (field_info g) = Some d
                        \/ (f_default (field_info g) = DefaultFactoryUtcnow
                            /\ get_default now (field_info g) = Some (Datetime now)).
Proof.
  intros Hg Hn. unfold covers in C_covered. apply andb_true_iff in C_covered as [_ H].
  rewrite forallb_forall in H. apply list_elem_of_In in Hg. apply H in Hg.
  apply orb_true_iff in Hg as [Hg|Hg]; [by apply bool_decide_eq_true in Hg|].
  unfold is_required, get_default in *.
  destruct (f_default (field_info g)) as [|d|]; [done| |].
  - exists d. intros now. by left.
  - exists None_. intros now. by right.
Qed.

Lemma record_field_fixpoint utcnow utcnow' data c g :
  validate_python C utcnow data = Ok c -> g ∈ model_fields T ->
  exists w, sqlmodel_table_construct T utcnow' c !! field_name g = Some w
            /\ validate (field_annotation g) (field_info g) w = inr w
            /\ (field_name g ∈ field_names C -> c !! field_name g = Some w)
            /\ (field_name g ∉ field_names C ->
                  get_default (utcnow' (field_name g)) (field_info g) = Some w).
Proof.
  intros H Hg. unfold sqlmodel_table_construct.
  rewrite (table_construct_lookup utcnow' c _ g (classes_names_NoDup T T_class) Hg).
  destruct (decide (field_name g ∈ field_names C)) as [Hin|Hnin].
  - apply list_elem_of_fmap in Hin as (f & Hname & Hf).
    destruct (validated_field_fixpoint C utcnow data c f C_class H Hf) as (w & Hw & Hv).
    destruct (covers_field f Hf) as (g' & Hg' & Hs).
    apply same_validator_spec in Hs as [Hn Hval].
    assert (g' = g) as ->.
    { apply (field_unique (model_fields T)); [by apply classes_names_NoDup|done|done|].
      congruence. }
    rewrite Hname, Hw. exists w. split; [done|]. split; [by rewrite <- Hval|].
    split; [done|]. intros Hnin. destruct Hnin.
    apply list_elem_of_fmap. eauto.
  - rewrite (validate_python_Ok_dom C utcnow data c _ H Hnin).
    destruct (covers_default g Hg Hnin) as (d & Hd).
    destruct (Hd (utcnow' (field_name g))) as [Hd'|[_ Hd']]; rewrite Hd'.
    + exists d. split; [done|].
      split; [by apply (classes_defaults_pass T g (utcnow' (field_name g)))|done].
    + eexists. split; [done|].
      split; [by apply (classes_defaults_pass T g (utcnow' (field_name g)))|done].
Qed.

End Pipeline.

Lemma create_pairs_covered C T :
  (C, T) ∈ create_pairs ->
  C ∈ classes /\ T ∈ classes /\ table C = false /\ table T = true /\ covers C T = true.
Proof.
  intros H. unfold create_pairs in H.
  repeat (apply elem_of_cons in H as [[= -> ->]|H]); [..|by apply elem_of_nil in H];
    (split; [unfold classes, tables, schemas; field_in|]);
    (split; [unfold classes, tables, schemas; field_in|]);
    (split; [reflexivity|]); (split; [reflexivity|]); vm_compute; reflexivity.
Qed.

(** X12: for each of the five Create shapes and its table class, the
    record that the table constructor builds from an accepted shape passes
    [model_validate] of the table class unchanged, and holds the fields of
    the shape as the shape holds them, whatever the arguments of the shape
    were. *)
Theorem validated_input_gives_valid_record {lax : LaxMode}
  (C T : ModelClass) (utcnow utcnow' utcnow'' : clock) (data c : dict) :
  (C, T) ∈ create_pairs -> init C utcnow data = Ok c ->
  exists r, init T utcnow' c = Ok r
    /\ model_validate_instance T utcnow'' r = Ok r
    /\ forall k, k ∈ field_names C -> r !! k = c !! k.
Proof.
  intros Hp H. destruct (create_pairs_covered C T Hp) as (HC & HT & HtC & HtT & Hcov).
  unfold init in *. rewrite HtC in H. rewrite HtT.
  exists (sqlmodel_table_construct T utcnow' c). split; [done|]. split.
  - unfold model_validate_instance. rewrite read_fields_all_set.
    + apply validate_python_fixpoint.
      * intros g Hg.
        destruct (record_field_fixpoint C T HC HT Hcov utcnow utcnow' data c g H Hg)
          as (w & Hw & Hv & _).
        eauto.
      * intros k Hk. by apply table_construct_lookup_None.
    + intros g Hg.
      destruct (record_field_fixpoint C T HC HT Hcov utcnow utcnow' data c g H Hg)
        as (w & Hw & _).
      by exists w.
    + intros k Hk. by apply table_construct_lookup_None.
  - intros k Hk. apply list_elem_of_fmap in Hk as (f & -> & Hf).
    destruct (covers_field C T Hcov f Hf) as (g & Hg & Hs).
    apply (same_validator_spec (lax := lax)) in Hs as [Hn _]. rewrite Hn.
    destruct (record_field_fixpoint C T HC HT Hcov utcnow utcnow' data c g H Hg)
      as (w & Hw & _ & Hc & _).
    rewrite Hw. symmetry. apply Hc. rewrite <- Hn. apply list_elem_of_fmap. eauto.
Qed.

Lemma validated_input_gives_valid_record_witness :
  exists r, init (lax := no_conversion) Event utc0 elocution = Ok r
    /\ model_validate_instance (lax := no_conversion) Event utc0 r = Ok r
    /\ forall k, k ∈ field_names EventCreate -> r !! k = elocution !! k.
Proof.
  apply (validated_input_gives_valid_record (lax := no_conversion) EventCreate Event
           utc0 utc0 utc0 elocution_kwargs elocution);
    [unfold create_pairs; field_in | reflexivity].
Defined.

(** X13: for each of the five Create shapes and its table class, the
    fields of the table class that the shape does not have are out of the
    caller's reach: whatever was passed to the shape, the record built
    from the accepted shape holds their defaults, and its [id] is
    [None]. *)
Theorem caller_cannot_set_other_fields {lax : LaxMode}
  (C T : ModelClass) (utcnow utcnow' : clock) (data c : dict) :
  (C, T) ∈ create_pairs -> init C utcnow data = Ok c ->
  exists r, init T utcnow' c = Ok r
    /\ r !! "id" = Some None_
    /\ forall g, g ∈ model_fields T -> field_name g ∉ field_names C ->
         exists d, get_default (utcnow' (field_name g)) (field_info g) = Some d
                   /\ r !! field_name g = Some d.
Proof.
  intros Hp H. destruct (create_pairs_covered C T Hp) as (HC & HT & HtC & HtT & Hcov).
  unfold init in *. rewrite HtC in H. rewrite HtT.
  exists (sqlmodel_table_construct T utcnow' c). split; [done|].
  assert (forall g, g ∈ model_fields T -> field_name g ∉ field_names C ->
            exists d, get_default (utcnow' (field_name g)) (field_info g) = Some d
                      /\ sqlmodel_table_construct T utcnow' c !! field_name g = Some d) as Hgen.
  { intros g Hg Hn.
    destruct (record_field_fixpoint C T HC HT Hcov utcnow utcnow' data c g H Hg)
      as (w & Hw & _ & _ & Hd).
    exists w. split; [by apply Hd|done]. }
  split; [|exact Hgen].
  assert (("id", Optional int_, Field [default None_; primary_key true]) ∈ model_fields T
          /\ "id" ∉ field_names C) as [Hid Hnid].
  { unfold create_pairs in Hp.
    repeat (apply elem_of_cons in Hp as [[= -> ->]|Hp]); [..|by apply elem_of_nil in Hp];
      (split; [field_in|apply (bool_decide_unpack _); vm_compute; exact I]). }
  destruct (Hgen _ Hid Hnid) as (d & Hd & Hr). cbn in Hd. injection Hd as <-. exact Hr.
Qed.

Lemma caller_cannot_set_other_fields_witness :
  exists r,
    init (lax := no_conversion) Student utc0 (<["name" := Str (lit "Amina")]> (<["class_name" := Str (lit "7 B")]>
                      (<["category" := Enum SUB_JUNIOR]> ∅))) = Ok r
    /\ r !! "id" = Some None_
    /\ forall g, g ∈ model_fields Student -> field_name g ∉ field_names StudentCreate ->
         exists d, get_default (utc0 (field_name g)) (field_info g) = Some d
                   /\ r !! field_name g = Some d.
Proof.
  apply (caller_cannot_set_other_fields StudentCreate Student utc0 utc0
           (<["is_active" := Bool false]> (<["id" := Int 5]> student_kwargs)));
    [unfold create_pairs; field_in | reflexivity].
Defined.

(** X14: an [Admin] never holds the raw password: the class has no such
    field and the constructor drops the argument.  [AdminCreate] is not
    covered by [Admin]: the instance built from an accepted [AdminCreate]
    has no [password_hash] in its [__dict__], the attribute reads [None],
    and [model_validate] of the instance fails with [string_type] for
    it. *)
Theorem Admin_holds_no_password {lax : LaxMode}
  (utcnow utcnow' utcnow'' : clock) (data : dict) :
  (exists obj, init Admin utcnow data = Ok obj
     /\ obj !! "password" = None /\ getattr Admin obj "password" = None)
  /\ covers AdminCreate Admin = false
  /\ forall c, init AdminCreate utcnow data = Ok c ->
       exists r, init Admin utcnow' c = Ok r
         /\ r !! "password" = None
         /\ r !! "password_hash" = None
         /\ getattr Admin r "password_hash" = Some None_
         /\ raises (model_validate_instance Admin utcnow'' r) "password_hash" string_type.
Proof.
  assert (forall u d, sqlmodel_table_construct Admin u d !! "password" = None) as Hpw.
  { intros u d. apply table_construct_lookup_None.
    apply (bool_decide_unpack _). vm_compute. exact I. }
  split.
  { eexists. split; [reflexivity|]. split; [apply Hpw|].
    unfold getattr. by rewrite Hpw. }
  split; [vm_compute; reflexivity|].
  intros c H. eexists. split; [reflexivity|]. split; [apply Hpw|].
  assert (sqlmodel_table_construct Admin utcnow' c !! "password_hash" = None) as Hh.
  { unfold sqlmodel_table_construct.
    rewrite (table_construct_lookup utcnow' c _ password_hash_field);
      [|names_nodup|field_in].
    change (field_name password_hash_field) with "password_hash".
    rewrite (validate_python_Ok_dom AdminCreate utcnow data c "password_hash" H); [done|].
    apply (bool_decide_unpack _). vm_compute. exact I. }
  assert (getattr Admin (sqlmodel_table_construct Admin utcnow' c) "password_hash"
          = Some None_) as Hg.
  { unfold getattr. by rewrite Hh. }
  split; [exact Hh|]. split; [exact Hg|].
  apply (validate_python_rejects utcnow'' _ Admin password_hash_field); [field_in|].
  unfold validate_field.
  change (field_name password_hash_field) with "password_hash".
  rewrite read_fields_lookup by field_in.
  by rewrite Hg.
Qed.

Lemma Admin_holds_no_password_witness :
  exists r, init (lax := no_conversion) Admin utc0 (admin_kwargs "123456") = Ok r
    /\ r !! "password" = None /\ r !! "password_hash" = None
    /\ getattr Admin r "password_hash" = Some None_
    /\ raises (model_validate_instance (lax := no_conversion) Admin utc0 r)
         "password_hash" string_type.
Proof.
  apply (Admin_holds_no_password (lax := no_conversion) utc0 utc0 utc0
           (admin_kwargs "123456")).
  reflexivity.
Defined.

(** ** Shapes that need no argument *)

Lemma update_shapes_accept_nothing {lax : LaxMode} cls utcnow :
  cls ∈ update_shapes -> exists obj, init cls utcnow ∅ = Ok obj.
Proof. intros H. class_cases H; eexists; reflexivity. Qed.

(** X15: among the input shapes, the four Update shapes and no other are
    accepted without any argument; what they then hold is [None] in every
    field. *)
Theorem only_update_shapes_need_no_argument {lax : LaxMode}
  (cls : ModelClass) (utcnow : clock) :
  cls ∈ schemas ->
  ((exists obj, init cls utcnow ∅ = Ok obj) <-> cls ∈ update_shapes)
  /\ (forall obj f, init cls utcnow ∅ = Ok obj -> f ∈ model_fields cls ->
        obj !! field_name f = Some None_).
Proof.
  intros H. split; [split; [|apply update_shapes_accept_nothing]|].
  - intros [obj Hobj].
    class_cases H; first [by vm_compute in Hobj | unfold update_shapes; by field_in].
  - intros obj f Hobj Hf.
    class_cases H;
      first [by vm_compute in Hobj
            | injection Hobj as <-; simpl in Hf;
              repeat (apply elem_of_cons in Hf as [->|Hf]);
              [reflexivity..|by apply elem_of_nil in Hf]].
Qed.

Lemma only_update_shapes_need_no_argument_witness :
  (exists obj, init (lax := no_conversion) EventUpdate utc0 ∅ = Ok obj)
  /\ ((exists obj, init (lax := no_conversion) EventCreate utc0 ∅ = Ok obj) -> EventCreate ∈ update_shapes).
Proof.
  split.
  - apply (only_update_shapes_need_no_argument EventUpdate utc0);
      [unfold schemas; field_in | unfold update_shapes; field_in].
  - apply (only_update_shapes_need_no_argument EventCreate utc0).
    unfold schemas; field_in.
Defined.

(** ** The tables among each other *)

(** X16: every foreign key of every table class names an existing table
    and its primary key column; the field that holds it is a required
    [int], the column it points to an [Optional[int]] that defaults to
    [None]. *)
Theorem foreign_keys_resolve (cls : ModelClass) (f : field) (fk : string) :
  cls ∈ tables -> f ∈ model_fields cls -> f_foreign_key (field_info f) = Some fk ->
  exists T pk,
    resolve_foreign_key fk = Some (T, pk)
    /\ T ∈ tables /\ pk ∈ model_fields T
    /\ f_primary_key (field_info pk) = true
    /\ field_annotation pk = Optional int_
    /\ f_default (field_info pk) = Default None_
    /\ field_annotation f = int_
    /\ is_required (field_info f) = true.
Proof.
  intros Hcls Hf Hfk. class_cases Hcls; simpl in Hf;
    repeat (apply elem_of_cons in Hf as [->|Hf]); try (by apply elem_of_nil in Hf);
    cbn in Hfk; try discriminate Hfk; injection Hfk as <-;
    eexists _, _; (split; [reflexivity|]);
    (split; [unfold tables; by field_in|]); (split; [by field_in|]);
    repeat split; reflexivity.
Qed.

Lemma foreign_keys_resolve_witness :
  exists T pk, resolve_foreign_key "schedules.id" = Some (T, pk)
    /\ T ∈ tables /\ pk ∈ model_fields T
    /\ f_primary_key (field_info pk) = true
    /\ field_annotation pk = Optional int_
    /\ f_default (field_info pk) = Default None_
    /\ field_annotation ("schedule_id", int_, Field [foreign_key "schedules.id"]) = int_
    /\ is_required (field_info ("schedule_id", int_, Field [foreign_key "schedules.id"])) = true.
Proof.
  apply (foreign_keys_resolve ScheduleSlot
           ("schedule_id", int_, Field [foreign_key "schedules.id"]) "schedules.id");
    [unfold tables; field_in | field_in | reflexivity].
Defined.

(** X17: the relationship attributes fit together.  Each is listed by
    the class of its table and points to a table of the file; where
    [back_populates] is given, the attribute it names exists on the other
    side, points back, names this attribute in turn, and one of the two
    sides is a list and the other is not; and the side that is not a list
    has a foreign key into the table of the other side. *)
Theorem relationships_consistent (r : RelationshipDecl) :
  r ∈ relationships ->
  (exists O T, find_table (owner r) = Some O /\ find_table (target r) = Some T
     /\ attr r ∈ sqlmodel_relationships O
     /\ (if is_list r then foreign_keys_into T (owner r)
         else foreign_keys_into O (target r)) <> [])
  /\ (forall b, back_populates r = Some b ->
        exists r', find_relationship (target r) b = Some r'
          /\ target r' = owner r
          /\ back_populates r' = Some (attr r)
          /\ is_list r' = negb (is_list r)).
Proof.
  intros H. unfold relationships in H.
  repeat (apply elem_of_cons in H as [->|H]); [..|by apply elem_of_nil in H].
  all: split;
    [eexists _, _; (split; [reflexivity|]); (split; [reflexivity|]);
     (split; [by field_in|vm_compute; discriminate])
    |intros b Hb; cbn in Hb; try discriminate Hb; injection Hb as <-;
     eexists; (split; [reflexivity|]); repeat split; reflexivity].
Qed.

Lemma relationships_consistent_witness :
  exists r', find_relationship "event_participants" "student" = Some r'
    /\ target r' = "students"
    /\ back_populates r' = Some "event_participations"
    /\ is_list r' = false.
Proof.
  apply (relationships_consistent
           {| owner := "students"; attr := "event_participations";
              target := "event_participants"; is_list := true;
              back_populates := Some "student" |});
    [unfold relationships; field_in | reflexivity].
Defined.

(** The relationship attributes of a table class are those declared for
    its table, in the order of the file. *)
Lemma sqlmodel_relationships_declared cls t :
  cls ∈ tables -> tablename cls = Some t ->
  sqlmodel_relationships cls = map attr (filter (fun r => owner r = t) relationships).
Proof.
  intros H Ht. class_cases H; injection Ht as <-; reflexivity.
Qed.
